(** * cbw_api_toolbox: the request / pagination / normalisation pipeline

    A shallow embedding of [cbw_api_toolbox/cbw_api.py] (class [CBWApi])
    and of the route table [cbw_api_toolbox/__routes__.py].

    Python values are a small inductive type, dictionaries are finite maps,
    the caller's [params] dictionary lives in a store because [_get_pages]
    updates it in place, and every method is a computation in a state and
    exception monad whose state records the store, the requests handed to
    [requests.request] and the calls made to [logging]. *)

From Stdlib Require Import ZArith.
From stdpp Require Import gmap strings list fin_maps.

Set Warnings "-register-all".
Local Open Scope Z_scope.

(** ** Python values *)

(** The values that flow through the client: [None], booleans, integers,
    strings, lists, and the [cbw_object] named tuples that [_cbw_parser]
    builds from JSON objects (field names with their values, in order). *)
Inductive pyval : Type :=
| PNone
| PBool (b : bool)
| PInt (n : Z)
| PStr (s : string)
| PList (items : list pyval)
| PObj (fields : list (string * pyval)).

(** Truth value of an object, as tested by [if x:]. *)
Definition truthy (v : pyval) : bool :=
  match v with
  | PNone => false
  | PBool b => b
  | PInt n => negb (n =? 0)
  | PStr s => negb (String.eqb s "")
  | PList items => negb (bool_decide (items = []))
  | PObj fields => negb (bool_decide (fields = []))
  end.

(** [a or b] *)
Definition py_or (a b : pyval) : pyval := if truthy a then a else b.

(** What iterating over a value yields ([list.extend] iterates its
    argument): the elements of a list, the field values of a named tuple,
    the characters of a string; the other values are not iterable. *)
Definition py_iter (v : pyval) : option (list pyval) :=
  match v with
  | PList items => Some items
  | PObj fields => Some (fields.*2)
  | PStr s => Some ((fun c => PStr (String c EmptyString)) <$> String.list_ascii_of_string s)
  | PNone | PBool _ | PInt _ => None
  end.

(** A dictionary with string keys: [params], [info], request bodies. *)
Abbreviation dict := (gmap string pyval).

(** Truth value of an optional dictionary argument ([None] or a dict). *)
Definition truthy_dict (d : option dict) : bool :=
  match d with
  | None => false
  | Some m => negb (bool_decide (m = ∅))
  end.

(** ** Exceptions *)

(** The exception classes that can arise on the paths modelled here: those
    of the interpreter and the standard library up to the builtin
    [ConnectionError], then those of [requests] and [urllib3].
    [RequestsConnectionError] is [requests.exceptions.ConnectionError],
    which is not the builtin [ConnectionError] that [cbw_api.py] names in
    its [except] clause. *)
Inductive exn : Type :=
| TypeError
| KeyError
| AttributeError
| UnboundLocalError
| ValueError
| JSONDecodeError
| ConnectionError
| ProxyError
| SSLError
| NewConnectionError
| RetryError
| InvalidHeader
| MaxRetryError
| MissingSchema
| RequestsConnectionError
| ReadTimeout
| InvalidSchema
| InvalidURL.

Global Instance exn_eq_dec : EqDecision exn.
Proof. solve_decision. Defined.

(** ** Wire data *)

(** A link target.  [urlparse] and [parse_qs] are library functions; a URL
    is kept in decomposed form: everything up to the query, and the query
    as its [name=value] pairs in order. *)
Record link : Type := Link {
  link_base : string;
  link_query : list (string * string)
}.

(** [requests.Response], as far as the client reads it. *)
Record response : Type := Response {
  status_code : Z;
  text : string;
  links : gmap string link
}.

(** One call to [requests.request]: the verb, the route, the serialised
    body ([json.dumps] of a dictionary, kept as the dictionary), the
    credentials given to [CBWAuth] and the [verify] flag. *)
Record request : Type := Request {
  req_verb : string;
  req_route : string;
  req_data : option dict;
  req_auth : string * string;
  req_verify : bool
}.

(** What [requests.request] does with a request: it returns a response or
    raises. *)
Inductive transport : Type :=
| Responded (r : response)
| Failed (e : exn).

(** What [json.loads(text, object_hook=...)] does with a text: it returns
    the decoded value (objects already turned into named tuples) or
    raises. *)
Inductive loads_result : Type :=
| Decoded (v : pyval)
| LoadsRaises (e : exn).

(** ** Logging *)

Inductive logger_name : Type := RootLogger | ClassLogger.
Inductive log_method : Type := LDebug | LInfo | LError | LException.

(** The object substituted into a message by [str.format]. *)
Inductive fmt_arg : Type :=
| AText (s : string)
| AVal (v : pyval)
| ADict (d : option dict).

(** A logging call: which logger, which method, the message template and
    the argument of [format], if any. *)
Record log_record : Type := LogRecord {
  log_via : logger_name;
  log_level : log_method;
  log_template : string;
  log_arg : option fmt_arg
}.

(** ** State and results *)

Abbreviation loc := nat.

Record state : Type := State {
  heap : gmap loc dict;
  trace : list request;
  logs : list log_record
}.

(** The state after one more request, and after one more logging call. *)
Definition sent (s : state) (req : request) : state :=
  State (heap s) (trace s ++ [req]) (logs s).
Definition logged (s : state) (r : log_record) : state :=
  State (heap s) (trace s) (logs s ++ [r]).

(** How a computation ends: with a value, with an exception propagating,
    with [sys.exit], or without an answer within the loop budget of the
    model. *)
Inductive outcome (A : Type) : Type :=
| Ret (a : A)
| Raise (e : exn)
| Exit (code : Z)
| OutOfFuel.
Arguments Ret {A} a.
Arguments Raise {A} e.
Arguments Exit {A} code.
Arguments OutOfFuel {A}.

Definition M (A : Type) : Type := state -> outcome A * state.

Definition ret {A} (a : A) : M A := fun s => (Ret a, s).

Definition bind {A B} (m : M A) (k : A -> M B) : M B :=
  fun s =>
    match m s with
    | (Ret a, s') => k a s'
    | (Raise e, s') => (Raise e, s')
    | (Exit c, s') => (Exit c, s')
    | (OutOfFuel, s') => (OutOfFuel, s')
    end.

Notation "'do' x <- m ; k" := (bind m (fun x => k))
  (at level 10, x name, m at level 100, k at level 200).
Notation "'do_' m ; k" := (bind m (fun _ => k))
  (at level 10, m at level 100, k at level 200).

Definition raise {A} (e : exn) : M A := fun s => (Raise e, s).
Definition sys_exit {A} (code : Z) : M A := fun s => (Exit code, s).
Definition out_of_fuel {A} : M A := fun s => (OutOfFuel, s).

(** [try: body except <classes>: handler] for a handler chosen by class. *)
Definition try_except {A} (body : M A) (handler : exn -> option (M A)) : M A :=
  fun s =>
    match body s with
    | (Raise e, s') =>
        match handler e with
        | Some h => h s'
        | None => (Raise e, s')
        end
    | r => r
    end.

(** *** Logging primitives *)

Definition emit (r : log_record) : M unit :=
  fun s => (Ret tt, logged s r).

Definition logging_debug (t : string) (a : option fmt_arg) : M unit :=
  emit (LogRecord RootLogger LDebug t a).
Definition logging_info (t : string) (a : option fmt_arg) : M unit :=
  emit (LogRecord RootLogger LInfo t a).
Definition logging_error (t : string) (a : option fmt_arg) : M unit :=
  emit (LogRecord RootLogger LError t a).
Definition logger_error (t : string) (a : option fmt_arg) : M unit :=
  emit (LogRecord ClassLogger LError t a).
Definition logger_exception (t : string) (a : option fmt_arg) : M unit :=
  emit (LogRecord ClassLogger LException t a).

(** *** Dictionaries in the store *)

(** The dictionary a reference points to; a reference handed to the client
    always points to a live dictionary. *)
Definition deref (h : gmap loc dict) (l : loc) : dict := default ∅ (h !! l).

(** [{}] *)
Definition new_dict : M loc :=
  fun s =>
    let l := fresh (dom (heap s)) in
    (Ret l, State (<[l := ∅]> (heap s)) (trace s) (logs s)).

(** The current contents of [d]. *)
Definition load (l : loc) : M dict := fun s => (Ret (deref (heap s) l), s).

(** [k in d] *)
Definition contains (l : loc) (k : string) : M bool :=
  fun s => (Ret (bool_decide (is_Some (deref (heap s) l !! k))), s).

(** [d[k] = v] *)
Definition setitem (l : loc) (k : string) (v : pyval) : M unit :=
  fun s =>
    (Ret tt,
     State (<[l := <[k := v]> (deref (heap s) l)]> (heap s)) (trace s) (logs s)).

(** *** Attribute access on a response that may be [None] *)

Definition getattr {A} (f : response -> A) (r : option response) : M A :=
  match r with
  | Some r => ret (f r)
  | None => raise AttributeError
  end.

(** *** Reading a dictionary passed by value *)

(** [d[k]] *)
Definition getitem (d : dict) (k : string) : M pyval :=
  match d !! k with
  | Some v => ret v
  | None => raise KeyError
  end.

(** [d.get(k, dflt)] *)
Definition dict_get (d : dict) (k : string) (dflt : pyval) : pyval :=
  default dflt (d !! k).

(** ** Routes ([__routes__.py]) *)

Definition ROUTE_AGENTS : string := "/api/v3/agents".
Definition ROUTE_COMPLIANCE_ASSETS : string := "/api/v3/compliance/servers".
Definition ROUTE_COMPLIANCE_RULES : string := "/api/v3/compliance/rules".
Definition ROUTE_CVE_ANNOUNCEMENTS : string := "/api/v3/cve_announcements".
Definition ROUTE_GROUPS : string := "/api/v3/groups".
Definition ROUTE_HOSTS : string := "/api/v3/hosts".
Definition ROUTE_AIRGAPPED_SCRIPTS : string := "/api/v2/cbw_scans/scripts".
Definition ROUTE_NODES : string := "/api/v3/nodes".
Definition ROUTE_PING : string := "/api/v3/ping".
Definition ROUTE_REMOTE_ACCESSES : string := "/api/v3/remote_accesses".
Definition ROUTE_SECURITY_ISSUES : string := "/api/v3/security_issues".
Definition ROUTE_SERVERS : string := "/api/v3/servers".
Definition ROUTE_STORED_CREDENTIALS : string := "/api/v3/assets/credentials".
Definition ROUTE_USERS : string := "/api/v3/users".

(** Modelled from the spec: [ROUTE_IMPORTER] is imported by [cbw_api.py]
    but is not among the constants of [__routes__.py]; it is given the path
    that the importer operations document, which is the one
    [ROUTE_AIRGAPPED_SCRIPTS] holds. *)
Definition ROUTE_IMPORTER : string := "/api/v2/cbw_scans/scripts".

(** ** The client *)

(** The world around the client: what [requests.request] answers to a
    request, given the requests made so far, and what [json.loads] with the
    named-tuple hook makes of a text. *)
Record environment : Type := Environment {
  wire : list request -> request -> transport;
  json_loads : string -> loads_result
}.

(** The instance attributes set by [__init__]. *)
Record CBWApi : Type := Client {
  api_url : string;
  api_key : string;
  secret_key : string;
  verify_ssl : bool
}.

(** ['/'.join(params)]: every item must be a string. *)
Fixpoint all_strings (items : list pyval) : option (list string) :=
  match items with
  | [] => Some []
  | PStr s :: rest => cons s <$> all_strings rest
  | _ :: _ => None
  end.

Definition str_join (sep : string) (items : list pyval) : M string :=
  match all_strings items with
  | Some l => ret (String.concat sep l)
  | None => raise TypeError
  end.

(** [parse_qs]: the values of each name, in order; fields with a blank
    value are left out. *)
Definition parse_qs (query : list (string * string)) : gmap string (list string) :=
  foldr (fun kv m =>
           if String.eqb kv.2 "" then m
           else <[kv.1 := kv.2 :: default [] (m !! kv.1)]> m)
        ∅ query.

(** [parse_qs(urlparse(url).query)['page'][0]]; the lists [parse_qs] builds
    are never empty, so only the lookup can fail. *)
Definition next_page (lk : link) : M string :=
  match parse_qs (link_query lk) !! "page" with
  | Some (p :: _) => ret p
  | _ => raise KeyError
  end.

(** [response_list.extend(v)] *)
Definition extend (response_list : list pyval) (v : pyval) : M (list pyval) :=
  match py_iter v with
  | Some items => ret (response_list ++ items)
  | None => raise TypeError
  end.

(** What a public method hands back: a Python value ([None], [True],
    [False], a decoded body, a list of items) or, for the bulk upload, the
    response object itself. *)
Inductive retval : Type :=
| RVal (v : pyval)
| RResponse (r : response).

(** [info[k]] and [info.get(k, dflt)] on an argument that may be [None]. *)
Definition subscript (info : option dict) (k : string) : M pyval :=
  match info with
  | Some d => getitem d k
  | None => raise TypeError
  end.

Definition get_method (info : option dict) (k : string) (dflt : pyval) : M pyval :=
  match info with
  | Some d => ret (dict_get d k dflt)
  | None => raise AttributeError
  end.

(** The exception classes of the first [except] clause of [_request]. *)
Definition connectivity_clause (e : exn) : bool :=
  match e with
  | ConnectionError | ProxyError | SSLError | NewConnectionError
  | RetryError | InvalidHeader | MaxRetryError => true
  | _ => false
  end.

Section Client.

Context (env : environment) (self : CBWApi).

(** [requests.request(verb, route, data=..., auth=..., verify=...)]: the
    request is recorded, then answered by the environment. *)
Definition requests_request (req : request) : M response :=
  fun s =>
    match wire env (trace s) req with
    | Responded r => (Ret r, sent s req)
    | Failed e => (Raise e, sent s req)
    end.

Definition _build_route (params : list pyval) : M string :=
  do joined <- str_join "/" params;
  ret (api_url self +:+ joined).

(** [result] is bound only when [json.loads] returns. *)
Definition _cbw_parser (response : option response) : M pyval :=
  do result <-
    try_except
      (do t <- getattr text response;
       match json_loads env t with
       | Decoded v => ret (Some v)
       | LoadsRaises e => raise e
       end)
      (fun e =>
         match e with
         | TypeError =>
             Some (do_ logger_error "An error occurred while parsing response" None;
                   ret None)
         | _ => None
         end);
  match result with
  | Some v => ret v
  | None => raise UnboundLocalError
  end.

(** A handled connectivity failure falls off the end of the function,
    which returns [None]. *)
Definition _request (verb : string) (payloads : list pyval)
    (body_params : option dict) : M (option response) :=
  do route <- _build_route payloads;
  try_except
    (do r <- requests_request
               (Request verb route body_params (api_key self, secret_key self)
                        (verify_ssl self));
     ret (Some r))
    (fun e =>
       if connectivity_clause e then
         Some (do_ logger_exception "An error occurred when requesting {}"
                     (Some (AText route));
               ret None)
       else
         match e with
         | MissingSchema =>
             Some (do_ logger_error "An error occurred, please check your API_URL." None;
                   sys_exit (-1))
         | _ => None
         end).

(** The [while 'next' in response.links] loop of [_get_pages]; [fuel]
    bounds the number of iterations. *)
Fixpoint follow_next (fuel : nat) (verb : string) (route : list pyval)
    (params : loc) (response : option response) (response_list : list pyval)
    : M pyval :=
  do lks <- getattr links response;
  match lks !! "next" with
  | None => ret (PList response_list)
  | Some lk =>
      match fuel with
      | O => out_of_fuel
      | S fuel' =>
          do page <- next_page lk;
          do_ setitem params "page" (PStr page);
          do body <- load params;
          do response <- _request verb route (Some body);
          do items <- _cbw_parser response;
          do response_list <- extend response_list items;
          follow_next fuel' verb route params response response_list
      end
  end.

(** Get one or more pages for a method using api v3 pagination. *)
Definition _get_pages (fuel : nat) (verb : string) (route : list pyval)
    (params : option loc) : M pyval :=
  let response_list := [] in
  do params <-
    match params with
    | None =>
        do p <- new_dict;
        do_ setitem p "per_page" (PInt 100);
        ret p
    | Some p => ret p
    end;
  do has_per_page <- contains params "per_page";
  do_ (if negb has_per_page then setitem params "per_page" (PInt 100) else ret tt);
  do has_page <- contains params "page";
  if has_page then
    do body <- load params;
    do response <- _request verb route (Some body);
    do code <- getattr status_code response;
    if negb (code =? 200) then
      do t <- getattr text response;
      do_ logging_error "Error::{}" (Some (AText t));
      ret PNone
    else _cbw_parser response
  else
    do body <- load params;
    do response <- _request verb route (Some body);
    do code <- getattr status_code response;
    if negb (code =? 200) then
      do t <- getattr text response;
      do_ logging_error "Error::{}" (Some (AText t));
      ret PNone
    else
      do items <- _cbw_parser response;
      do response_list <- extend response_list items;
      follow_next fuel verb route params response response_list.

(** Check the response status code. *)
Definition verif_response (response : option response) : M bool :=
  do code <- getattr status_code response;
  if (200 <=? code) && (code <=? 299) then
    do t <- getattr text response;
    do_ logging_debug "response server OK::{}" (Some (AText t));
    ret true
  else
    do t <- getattr text response;
    do_ logging_error "response server KO::{}" (Some (AText t));
    ret false.

(** *** The public methods, in the order of the class *)

(** GET request to /api/v3/ping then check uuid value. *)
Definition ping : M retval :=
  do response <- _request "GET" [PStr ROUTE_PING] None;
  do code <- getattr status_code response;
  if code =? 200 then
    do_ logging_info "OK" None;
    ret (RVal (PBool true))
  else
    do_ logging_error "FAILED" None;
    ret (RVal (PBool false)).

Definition servers (fuel : nat) (params : option loc) : M retval :=
  do response <- _get_pages fuel "GET" [PStr ROUTE_SERVERS] params;
  ret (RVal response).

Definition server (server_id : pyval) : M retval :=
  do response <- _request "GET" [PStr ROUTE_SERVERS; server_id] None;
  do code <- getattr status_code response;
  if negb (code =? 200) then
    do t <- getattr text response;
    do_ logging_error "Error server id::{}" (Some (AText t));
    ret (RVal PNone)
  else
    do v <- _cbw_parser response;
    ret (RVal v).

Definition server_refresh (server_id : pyval) : M retval :=
  do response <- _request "PUT" [PStr ROUTE_SERVERS; server_id; PStr "refresh"] None;
  do code <- getattr status_code response;
  if negb (code =? 200) then
    do t <- getattr text response;
    do_ logging_error "Error server id::{}" (Some (AText t));
    ret (RVal PNone)
  else
    do v <- _cbw_parser response;
    ret (RVal v).

Definition update_server (server_id : pyval) (info : option dict) : M retval :=
  if truthy server_id then
    do response <- _request "PATCH" [PStr ROUTE_SERVERS; server_id] info;
    do_ logging_debug "Update server with: {}" (Some (ADict info));
    do ok <- verif_response response;
    ret (RVal (PBool ok))
  else
    do_ logging_error "No server id for update" None;
    ret (RVal (PBool false)).

Definition server_schedule_updates (server_id : pyval) (params : option dict)
    : M retval :=
  do response <- _request "POST" [PStr ROUTE_SERVERS; server_id; PStr "updates"] params;
  do code <- getattr status_code response;
  if negb (code =? 200) then
    do t <- getattr text response;
    do_ logging_error "Error::{}" (Some (AText t));
    ret (RVal PNone)
  else
    do v <- _cbw_parser response;
    ret (RVal v).

Definition delete_server (server_id : pyval) : M retval :=
  if truthy server_id then
    do_ logging_debug "Deleting {}" (Some (AVal server_id));
    do response <- _request "DELETE" [PStr ROUTE_SERVERS; server_id] None;
    do ok <- verif_response response;
    ret (RVal (PBool ok))
  else
    do_ logging_error "No server id specific for delete" None;
    ret (RVal (PBool false)).

Definition update_server_cve (server_id cve_code : pyval) (params : option dict)
    : M retval :=
  do response <-
    _request "PUT" [PStr ROUTE_SERVERS; server_id; PStr "cve_announcements"; cve_code]
             params;
  do code <- getattr status_code response;
  if negb (code =? 200) then
    do t <- getattr text response;
    do_ logging_error "Error::{}" (Some (AText t));
    ret (RVal PNone)
  else
    do v <- _cbw_parser response;
    ret (RVal v).

Definition agents (fuel : nat) (params : option loc) : M retval :=
  do response <- _get_pages fuel "GET" [PStr ROUTE_AGENTS] params;
  ret (RVal response).

Definition agent (agent_id : pyval) : M retval :=
  do response <- _request "GET" [PStr ROUTE_AGENTS; agent_id] None;
  do code <- getattr status_code response;
  if negb (code =? 200) then
    do t <- getattr text response;
    do_ logging_error "Error agent id::{}" (Some (AText t));
    ret (RVal PNone)
  else
    do v <- _cbw_parser response;
    ret (RVal v).

Definition delete_agent (agent_id : pyval) : M retval :=
  if truthy agent_id then
    do_ logging_debug "Deleting {}" (Some (AVal agent_id));
    do response <- _request "DELETE" [PStr ROUTE_AGENTS; agent_id] None;
    do ok <- verif_response response;
    ret (RVal (PBool ok))
  else
    do_ logging_error "No agent id specific for delete" None;
    ret (RVal (PBool false)).

Definition remote_accesses (fuel : nat) (params : option loc) : M retval :=
  do response <- _get_pages fuel "GET" [PStr ROUTE_REMOTE_ACCESSES] params;
  ret (RVal response).

(** [response] is bound only inside [if info:]. *)
Definition create_remote_access (info : option dict) : M retval :=
  do response <-
    (if truthy_dict info then
       do credential_id <- get_method info "credential_id" PNone;
       do response <-
         (if truthy credential_id then
            _request "POST" [PStr ROUTE_REMOTE_ACCESSES] info
          else
            do type <- subscript info "type";
            do address <- subscript info "address";
            do port <- subscript info "port";
            do login <- subscript info "login";
            do auth_password <- get_method info "auth_password" PNone;
            do password <- get_method info "password" PNone;
            do priv_password <- get_method info "priv_password" PNone;
            do key <- get_method info "key" PNone;
            do node_id <- subscript info "node_id";
            do server_groups <- get_method info "server_groups" (PStr "");
            _request "POST" [PStr ROUTE_REMOTE_ACCESSES]
              (Some (<["type" := type]>
                    (<["address" := address]>
                    (<["port" := port]>
                    (<["login" := login]>
                    (<["password" := py_or auth_password password]>
                    (<["key" := py_or priv_password key]>
                    (<["node_id" := node_id]>
                    (<["server_groups" := server_groups]> ∅))))))))));
       do t <- getattr text response;
       do_ logging_debug "Create connexion remote access::{}" (Some (AText t));
       ret (Some response)
     else ret None);
  match response with
  | None => raise UnboundLocalError
  | Some response =>
      do ok <- verif_response response;
      if ok then
        do address <- subscript info "address";
        do_ logging_info "remote access successfully created {}" (Some (AVal address));
        do v <- _cbw_parser response;
        ret (RVal v)
      else
        do_ logging_error "Error create connection remote access" None;
        ret (RVal (PBool false))
  end.

Definition remote_access (remote_access_id : pyval) : M retval :=
  do response <- _request "GET" [PStr ROUTE_REMOTE_ACCESSES; remote_access_id] None;
  do code <- getattr status_code response;
  if negb (code =? 200) then
    do t <- getattr text response;
    do_ logging_error "error remote_access_id::{}" (Some (AText t));
    ret (RVal PNone)
  else
    do v <- _cbw_parser response;
    ret (RVal v).

Definition delete_remote_access (remote_access_id : pyval) : M retval :=
  if truthy remote_access_id then
    do_ logging_debug "Deleting remote access {}" (Some (AVal remote_access_id));
    do response <- _request "DELETE" [PStr ROUTE_REMOTE_ACCESSES; remote_access_id] None;
    do ok <- verif_response response;
    ret (RVal (PBool ok))
  else
    do_ logging_error "No remote_access_id for delete" None;
    ret (RVal (PBool false)).

(** No status check here: whatever comes back is parsed. *)
Definition update_remote_access (remote_access_id : pyval) (info : option dict)
    : M retval :=
  if truthy remote_access_id && truthy_dict info then
    do response <- _request "PATCH" [PStr ROUTE_REMOTE_ACCESSES; remote_access_id] info;
    do t <- getattr text response;
    do_ logging_debug "Update remote access::{}" (Some (AText t));
    do v <- _cbw_parser response;
    ret (RVal v)
  else
    do_ logging_error "Error update remote access" None;
    ret (RVal (PBool false)).

Definition cve_announcement (cve_code : pyval) : M retval :=
  do response <- _request "GET" [PStr ROUTE_CVE_ANNOUNCEMENTS; cve_code] None;
  do code <- getattr status_code response;
  if negb (code =? 200) then
    do t <- getattr text response;
    do_ logging_error "Error server id::{}" (Some (AText t));
    ret (RVal PNone)
  else
    do v <- _cbw_parser response;
    ret (RVal v).

Definition cve_announcements (fuel : nat) (params : option loc) : M retval :=
  do response <- _get_pages fuel "GET" [PStr ROUTE_CVE_ANNOUNCEMENTS] params;
  ret (RVal response).

Definition update_cve_announcement (cve_code : pyval) (params : option dict) : M retval :=
  do response <- _request "PUT" [PStr ROUTE_CVE_ANNOUNCEMENTS; cve_code] params;
  do code <- getattr status_code response;
  if negb (code =? 200) then
    do t <- getattr text response;
    do_ logging_error "Error server id::{}" (Some (AText t));
    ret (RVal PNone)
  else
    do v <- _cbw_parser response;
    ret (RVal v).

Definition delete_cve_announcement (cve_code : pyval) : M retval :=
  do response <- _request "DELETE" [PStr ROUTE_CVE_ANNOUNCEMENTS; cve_code] None;
  do code <- getattr status_code response;
  if negb (code =? 200) then
    do t <- getattr text response;
    do_ logging_error "Error server id::{}" (Some (AText t));
    ret (RVal PNone)
  else
    do v <- _cbw_parser response;
    ret (RVal v).

Definition groups (fuel : nat) (params : option loc) : M retval :=
  do response <- _get_pages fuel "GET" [PStr ROUTE_GROUPS] params;
  ret (RVal response).

Definition group (group_id : pyval) : M retval :=
  do response <- _request "GET" [PStr ROUTE_GROUPS; group_id] None;
  do code <- getattr status_code response;
  if negb (code =? 200) then
    do t <- getattr text response;
    do_ logging_error "Error::{}" (Some (AText t));
    ret (RVal PNone)
  else
    do v <- _cbw_parser response;
    ret (RVal v).

Definition create_group (params : option dict) : M retval :=
  do response <- _request "POST" [PStr ROUTE_GROUPS] params;
  do code <- getattr status_code response;
  if negb (code =? 201) then
    do t <- getattr text response;
    do_ logging_error "Error::{}" (Some (AText t));
    ret (RVal PNone)
  else
    do v <- _cbw_parser response;
    ret (RVal v).

Definition update_group (group_id : pyval) (params : option dict) : M retval :=
  do response <- _request "PUT" [PStr ROUTE_GROUPS; group_id] params;
  do code <- getattr status_code response;
  if negb (code =? 200) then
    do t <- getattr text response;
    do_ logging_error "Error::{}" (Some (AText t));
    ret (RVal PNone)
  else
    do v <- _cbw_parser response;
    ret (RVal v).

Definition delete_group (group_id : pyval) : M retval :=
  do response <- _request "DELETE" [PStr ROUTE_GROUPS; group_id] None;
  do code <- getattr status_code response;
  if negb (code =? 200) then
    do t <- getattr text response;
    do_ logging_error "Error::{}" (Some (AText t));
    ret (RVal PNone)
  else
    do v <- _cbw_parser response;
    ret (RVal v).

Definition test_deploy_remote_access (remote_access_id : pyval) : M retval :=
  do response <- _request "PUT" [PStr ROUTE_REMOTE_ACCESSES; remote_access_id; PStr "test_deploy"] None;
  do code <- getattr status_code response;
  if negb (code =? 200) then
    do t <- getattr text response;
    do_ logging_error "Error::{}" (Some (AText t));
    ret (RVal PNone)
  else
    do v <- _cbw_parser response;
    ret (RVal v).

Definition users (fuel : nat) (params : option loc) : M retval :=
  do response <- _get_pages fuel "GET" [PStr ROUTE_USERS] params;
  ret (RVal response).

Definition user (user_id : pyval) : M retval :=
  do response <- _request "GET" [PStr ROUTE_USERS; user_id] None;
  do code <- getattr status_code response;
  if negb (code =? 200) then
    do t <- getattr text response;
    do_ logging_error "Error::{}" (Some (AText t));
    ret (RVal PNone)
  else
    do v <- _cbw_parser response;
    ret (RVal v).

Definition nodes (fuel : nat) (params : option loc) : M retval :=
  do response <- _get_pages fuel "GET" [PStr ROUTE_NODES] params;
  ret (RVal response).

Definition node (node_id : pyval) : M retval :=
  do response <- _request "GET" [PStr ROUTE_NODES; node_id] None;
  do code <- getattr status_code response;
  if negb (code =? 200) then
    do t <- getattr text response;
    do_ logging_error "Error::{}" (Some (AText t));
    ret (RVal PNone)
  else
    do v <- _cbw_parser response;
    ret (RVal v).

Definition delete_node (node_id : pyval) (new_node_id : option dict) : M retval :=
  do response <- _request "DELETE" [PStr ROUTE_NODES; node_id] new_node_id;
  do code <- getattr status_code response;
  if negb (code =? 200) then
    do t <- getattr text response;
    do_ logging_error "Error::{}" (Some (AText t));
    ret (RVal PNone)
  else
    do v <- _cbw_parser response;
    ret (RVal v).

Definition hosts (fuel : nat) (params : option loc) : M retval :=
  do response <- _get_pages fuel "GET" [PStr ROUTE_HOSTS] params;
  ret (RVal response).

Definition host (host_id : pyval) : M retval :=
  do response <- _request "GET" [PStr ROUTE_HOSTS; host_id] None;
  do code <- getattr status_code response;
  if negb (code =? 200) then
    do t <- getattr text response;
    do_ logging_error "Error::{}" (Some (AText t));
    ret (RVal PNone)
  else
    do v <- _cbw_parser response;
    ret (RVal v).

Definition create_host (params : option dict) : M retval :=
  do response <- _request "POST" [PStr ROUTE_HOSTS] params;
  do code <- getattr status_code response;
  if negb (code =? 201) then
    do t <- getattr text response;
    do_ logging_error "Error::{}" (Some (AText t));
    ret (RVal PNone)
  else
    do v <- _cbw_parser response;
    ret (RVal v).

Definition update_host (host_id : pyval) (params : option dict) : M retval :=
  do response <- _request "PUT" [PStr ROUTE_HOSTS; host_id] params;
  do code <- getattr status_code response;
  if negb (code =? 200) then
    do t <- getattr text response;
    do_ logging_error "Error::{}" (Some (AText t));
    ret (RVal PNone)
  else
    do v <- _cbw_parser response;
    ret (RVal v).

Definition delete_host (host_id : pyval) : M retval :=
  do response <- _request "DELETE" [PStr ROUTE_HOSTS; host_id] None;
  do code <- getattr status_code response;
  if negb (code =? 200) then
    do t <- getattr text response;
    do_ logging_error "Error::{}" (Some (AText t));
    ret (RVal PNone)
  else
    do v <- _cbw_parser response;
    ret (RVal v).

Definition security_issues (fuel : nat) (params : option loc) : M retval :=
  do response <- _get_pages fuel "GET" [PStr ROUTE_SECURITY_ISSUES] params;
  ret (RVal response).

Definition security_issue (security_issue_id : pyval) : M retval :=
  do response <- _request "GET" [PStr ROUTE_SECURITY_ISSUES; security_issue_id] None;
  do code <- getattr status_code response;
  if negb (code =? 200) then
    do t <- getattr text response;
    do_ logging_error "Error::{}" (Some (AText t));
    ret (RVal PNone)
  else
    do v <- _cbw_parser response;
    ret (RVal v).

Definition create_security_issue (params : option dict) : M retval :=
  do response <- _request "POST" [PStr ROUTE_SECURITY_ISSUES] params;
  do code <- getattr status_code response;
  if negb (code =? 201) then
    do t <- getattr text response;
    do_ logging_error "Error::{}" (Some (AText t));
    ret (RVal PNone)
  else
    do v <- _cbw_parser response;
    ret (RVal v).

Definition update_security_issue (security_issue_id : pyval) (params : option dict) : M retval :=
  do response <- _request "PUT" [PStr ROUTE_SECURITY_ISSUES; security_issue_id] params;
  do code <- getattr status_code response;
  if negb (code =? 200) then
    do t <- getattr text response;
    do_ logging_error "Error::{}" (Some (AText t));
    ret (RVal PNone)
  else
    do v <- _cbw_parser response;
    ret (RVal v).

Definition delete_security_issue (security_issue_id : pyval) : M retval :=
  do response <- _request "DELETE" [PStr ROUTE_SECURITY_ISSUES; security_issue_id] None;
  do code <- getattr status_code response;
  if negb (code =? 200) then
    do t <- getattr text response;
    do_ logging_error "Error::{}" (Some (AText t));
    ret (RVal PNone)
  else
    do v <- _cbw_parser response;
    ret (RVal v).

Definition fetch_importer_scripts (params : option dict) : M retval :=
  do response <- _request "GET" [PStr ROUTE_IMPORTER] params;
  do code <- getattr status_code response;
  if negb (code =? 200) then
    do t <- getattr text response;
    do_ logging_error "Error::{}" (Some (AText t));
    ret (RVal PNone)
  else
    do v <- _cbw_parser response;
    ret (RVal v).

Definition fetch_importer_script (script_id : pyval) : M retval :=
  do response <- _request "GET" [PStr ROUTE_IMPORTER; script_id] None;
  do code <- getattr status_code response;
  if negb (code =? 200) then
    do t <- getattr text response;
    do_ logging_error "Error::{}" (Some (AText t));
    ret (RVal PNone)
  else
    do v <- _cbw_parser response;
    ret (RVal v).

(** The acknowledgement has no body: the response itself is returned. *)
Definition upload_importer_results (content : option dict) : M retval :=
  do response <- _request "POST" [PStr ROUTE_IMPORTER] content;
  do code <- getattr status_code response;
  if negb (code =? 204) then
    do t <- getattr text response;
    do_ logging_error "Error::{}" (Some (AText t));
    ret (RVal PNone)
  else
    match response with
    | Some r => ret (RResponse r)
    | None => ret (RVal PNone)
    end.

Definition compliance_servers (fuel : nat) (params : option loc) : M retval :=
  do response <- _get_pages fuel "GET" [PStr ROUTE_COMPLIANCE_ASSETS] params;
  ret (RVal response).

Definition compliance_server (server_id : pyval) : M retval :=
  do response <- _request "GET" [PStr ROUTE_COMPLIANCE_ASSETS; server_id] None;
  do code <- getattr status_code response;
  if negb (code =? 200) then
    do t <- getattr text response;
    do_ logging_error "Error server id::{}" (Some (AText t));
    ret (RVal PNone)
  else
    do v <- _cbw_parser response;
    ret (RVal v).

Definition recheck_rules (server_id : pyval) : M retval :=
  do response <- _request "PUT" [PStr ROUTE_COMPLIANCE_ASSETS; server_id; PStr "recheck_rules"] None;
  do code <- getattr status_code response;
  if negb (code =? 200) then
    do t <- getattr text response;
    do_ logging_error "Error server id::{}" (Some (AText t));
    ret (RVal PNone)
  else
    do v <- _cbw_parser response;
    ret (RVal v).

Definition compliance_rules (fuel : nat) (params : option loc) : M retval :=
  do response <- _get_pages fuel "GET" [PStr ROUTE_COMPLIANCE_RULES] params;
  ret (RVal response).

Definition compliance_rule (server_id : pyval) : M retval :=
  do response <- _request "GET" [PStr ROUTE_COMPLIANCE_RULES; server_id] None;
  do code <- getattr status_code response;
  if negb (code =? 200) then
    do t <- getattr text response;
    do_ logging_error "Error server id::{}" (Some (AText t));
    ret (RVal PNone)
  else
    do v <- _cbw_parser response;
    ret (RVal v).

Definition create_compliance_rule (params : option dict) : M retval :=
  do response <- _request "POST" [PStr ROUTE_COMPLIANCE_RULES] params;
  do code <- getattr status_code response;
  if negb (code =? 201) then
    do t <- getattr text response;
    do_ logging_error "Error::{}" (Some (AText t));
    ret (RVal PNone)
  else
    do v <- _cbw_parser response;
    ret (RVal v).

Definition update_compliance_rule (rule_id : pyval) (info : option dict) : M retval :=
  if truthy rule_id then
    do response <- _request "PUT" [PStr ROUTE_COMPLIANCE_RULES; rule_id] info;
    do_ logging_info "Update compliance rule with: {}" (Some (ADict info));
    do ok <- verif_response response;
    ret (RVal (PBool ok))
  else
    do_ logging_error "Error: No rule_id was specified for update" None;
    ret (RVal (PBool false)).

Definition delete_compliance_rule (rule_id : pyval) : M retval :=
  if truthy rule_id then
    do_ logging_debug "Deleting {}" (Some (AVal rule_id));
    do response <- _request "DELETE" [PStr ROUTE_COMPLIANCE_RULES; rule_id] None;
    do ok <- verif_response response;
    ret (RVal (PBool ok))
  else
    do_ logging_error "Error: no rule_id was specified for deletion" None;
    ret (RVal (PBool false)).

Definition recheck_servers (rule_id : pyval) : M retval :=
  do response <- _request "PUT" [PStr ROUTE_COMPLIANCE_RULES; rule_id; PStr "recheck_servers"] None;
  do code <- getattr status_code response;
  if negb (code =? 200) then
    do t <- getattr text response;
    do_ logging_error "Error rule id::{}" (Some (AText t));
    ret (RVal PNone)
  else
    do v <- _cbw_parser response;
    ret (RVal v).

(** *** The public interface as data

    One constructor per public method with its arguments, so that
    statements can range over every operation of the client. *)
Inductive call : Type :=
| Call_ping
| Call_servers (params : option loc)
| Call_server (server_id : pyval)
| Call_server_refresh (server_id : pyval)
| Call_update_server (server_id : pyval) (info : option dict)
| Call_server_schedule_updates (server_id : pyval) (params : option dict)
| Call_delete_server (server_id : pyval)
| Call_update_server_cve (server_id cve_code : pyval) (params : option dict)
| Call_agents (params : option loc)
| Call_agent (agent_id : pyval)
| Call_delete_agent (agent_id : pyval)
| Call_remote_accesses (params : option loc)
| Call_create_remote_access (info : option dict)
| Call_remote_access (remote_access_id : pyval)
| Call_delete_remote_access (remote_access_id : pyval)
| Call_update_remote_access (remote_access_id : pyval) (info : option dict)
| Call_cve_announcement (cve_code : pyval)
| Call_cve_announcements (params : option loc)
| Call_update_cve_announcement (cve_code : pyval) (params : option dict)
| Call_delete_cve_announcement (cve_code : pyval)
| Call_groups (params : option loc)
| Call_group (group_id : pyval)
| Call_create_group (params : option dict)
| Call_update_group (group_id : pyval) (params : option dict)
| Call_delete_group (group_id : pyval)
| Call_test_deploy_remote_access (remote_access_id : pyval)
| Call_users (params : option loc)
| Call_user (user_id : pyval)
| Call_nodes (params : option loc)
| Call_node (node_id : pyval)
| Call_delete_node (node_id : pyval) (new_node_id : option dict)
| Call_hosts (params : option loc)
| Call_host (host_id : pyval)
| Call_create_host (params : option dict)
| Call_update_host (host_id : pyval) (params : option dict)
| Call_delete_host (host_id : pyval)
| Call_security_issues (params : option loc)
| Call_security_issue (security_issue_id : pyval)
| Call_create_security_issue (params : option dict)
| Call_update_security_issue (security_issue_id : pyval) (params : option dict)
| Call_delete_security_issue (security_issue_id : pyval)
| Call_fetch_importer_scripts (params : option dict)
| Call_fetch_importer_script (script_id : pyval)
| Call_upload_importer_results (content : option dict)
| Call_compliance_servers (params : option loc)
| Call_compliance_server (server_id : pyval)
| Call_recheck_rules (server_id : pyval)
| Call_compliance_rules (params : option loc)
| Call_compliance_rule (server_id : pyval)
| Call_create_compliance_rule (params : option dict)
| Call_update_compliance_rule (rule_id : pyval) (info : option dict)
| Call_delete_compliance_rule (rule_id : pyval)
| Call_recheck_servers (rule_id : pyval).

(** Performing a call; [fuel] is the loop budget of the paginated ones. *)
Definition run (fuel : nat) (c : call) : M retval :=
  match c with
  | Call_ping => ping
  | Call_servers params => servers fuel params
  | Call_server server_id => server server_id
  | Call_server_refresh server_id => server_refresh server_id
  | Call_update_server server_id info => update_server server_id info
  | Call_server_schedule_updates server_id params => server_schedule_updates server_id params
  | Call_delete_server server_id => delete_server server_id
  | Call_update_server_cve server_id cve_code params => update_server_cve server_id cve_code params
  | Call_agents params => agents fuel params
  | Call_agent agent_id => agent agent_id
  | Call_delete_agent agent_id => delete_agent agent_id
  | Call_remote_accesses params => remote_accesses fuel params
  | Call_create_remote_access info => create_remote_access info
  | Call_remote_access remote_access_id => remote_access remote_access_id
  | Call_delete_remote_access remote_access_id => delete_remote_access remote_access_id
  | Call_update_remote_access remote_access_id info => update_remote_access remote_access_id info
  | Call_cve_announcement cve_code => cve_announcement cve_code
  | Call_cve_announcements params => cve_announcements fuel params
  | Call_update_cve_announcement cve_code params => update_cve_announcement cve_code params
  | Call_delete_cve_announcement cve_code => delete_cve_announcement cve_code
  | Call_groups params => groups fuel params
  | Call_group group_id => group group_id
  | Call_create_group params => create_group params
  | Call_update_group group_id params => update_group group_id params
  | Call_delete_group group_id => delete_group group_id
  | Call_test_deploy_remote_access remote_access_id => test_deploy_remote_access remote_access_id
  | Call_users params => users fuel params
  | Call_user user_id => user user_id
  | Call_nodes params => nodes fuel params
  | Call_node node_id => node node_id
  | Call_delete_node node_id new_node_id => delete_node node_id new_node_id
  | Call_hosts params => hosts fuel params
  | Call_host host_id => host host_id
  | Call_create_host params => create_host params
  | Call_update_host host_id params => update_host host_id params
  | Call_delete_host host_id => delete_host host_id
  | Call_security_issues params => security_issues fuel params
  | Call_security_issue security_issue_id => security_issue security_issue_id
  | Call_create_security_issue params => create_security_issue params
  | Call_update_security_issue security_issue_id params => update_security_issue security_issue_id params
  | Call_delete_security_issue security_issue_id => delete_security_issue security_issue_id
  | Call_fetch_importer_scripts params => fetch_importer_scripts params
  | Call_fetch_importer_script script_id => fetch_importer_script script_id
  | Call_upload_importer_results content => upload_importer_results content
  | Call_compliance_servers params => compliance_servers fuel params
  | Call_compliance_server server_id => compliance_server server_id
  | Call_recheck_rules server_id => recheck_rules server_id
  | Call_compliance_rules params => compliance_rules fuel params
  | Call_compliance_rule server_id => compliance_rule server_id
  | Call_create_compliance_rule params => create_compliance_rule params
  | Call_update_compliance_rule rule_id info => update_compliance_rule rule_id info
  | Call_delete_compliance_rule rule_id => delete_compliance_rule rule_id
  | Call_recheck_servers rule_id => recheck_servers rule_id
  end.

End Client.

(** ** Reading results *)

(** The failure signal of the client: [None] or [False]. *)
Definition failure (v : retval) : Prop :=
  v = RVal PNone \/ v = RVal (PBool false).

(** A set of status codes an operation accepts. *)
Inductive code_set : Type :=
| Exactly (code : Z)
| Between (lo hi : Z).

Definition in_code_set (cs : code_set) (code : Z) : bool :=
  match cs with
  | Exactly c => code =? c
  | Between lo hi => (lo <=? code) && (code <=? hi)
  end.

(** The status codes each public method accepts, read off its status test
    ([!= 200], [!= 201], [!= 204], or [verif_response]);
    [update_remote_access] tests nothing. *)
Definition expected (c : call) : option code_set :=
  match c with
  | Call_update_remote_access _ _ => None
  | Call_update_server _ _ | Call_delete_server _ | Call_delete_agent _
  | Call_create_remote_access _ | Call_delete_remote_access _
  | Call_update_compliance_rule _ _ | Call_delete_compliance_rule _ =>
      Some (Between 200 299)
  | Call_create_group _ | Call_create_host _ | Call_create_security_issue _
  | Call_create_compliance_rule _ => Some (Exactly 201)
  | Call_upload_importer_results _ => Some (Exactly 204)
  | _ => Some (Exactly 200)
  end.

(** The request [_request] builds for a route and a body. *)
Definition the_request (self : CBWApi) (verb route : string) (body : option dict)
    : request :=
  Request verb route body (api_key self, secret_key self) (verify_ssl self).

(** The dictionary [_get_pages] works on once the page size is defaulted. *)
Definition effective_params (h : gmap loc dict) (params : option loc) : dict :=
  match params with
  | None => <["per_page" := PInt 100]> ∅
  | Some l =>
      if bool_decide (is_Some (deref h l !! "per_page")) then deref h l
      else <["per_page" := PInt 100]> (deref h l)
  end.

(** The two records [_request] writes when the transport raises. *)
Definition connectivity_record (route : string) : log_record :=
  LogRecord ClassLogger LException "An error occurred when requesting {}"
            (Some (AText route)).
Definition exit_diagnostic : log_record :=
  LogRecord ClassLogger LError "An error occurred, please check your API_URL." None.

(** A record of the root logger at error level that carries [body]. *)
Definition carries_body (body : string) (r : log_record) : Prop :=
  log_via r = RootLogger /\ log_level r = LError /\ log_arg r = Some (AText body).

(** ** Example data *)

Definition demo_client : CBWApi := Client "https://cbw.example" "key" "secret" false.

(** [json.loads] on the bodies the examples use; [oops] is not JSON. *)
Definition demo_loads (t : string) : loads_result :=
  if String.eqb t "[1,2]" then Decoded (PList [PInt 1; PInt 2])
  else if String.eqb t "[3]" then Decoded (PList [PInt 3])
  else if String.eqb t "[]" then Decoded (PList [])
  else LoadsRaises JSONDecodeError.

Definition empty_state : state := State ∅ [] [].

(** A server that answers every request with the same response. *)
Definition always (r : response) : environment :=
  Environment (fun _ _ => Responded r) demo_loads.

(** A transport on which every request raises [e]. *)
Definition failing (e : exn) : environment :=
  Environment (fun _ _ => Failed e) demo_loads.

(** A server that answers the n-th request with the n-th response of a
    script; past the script the request times out. *)
Definition scripted (script : list response) : environment :=
  Environment (fun tr _ =>
                 match script !! length tr with
                 | Some r => Responded r
                 | None => Failed ReadTimeout
                 end)
              demo_loads.

Definition next_link (page : string) : gmap string link :=
  {[ "next" := Link "https://cbw.example/api/v3/servers"
                    [("page", page); ("per_page", "100")] ]}.

(** Two pages of a collection, the first one linking to the second. *)
Definition page_one : response := Response 200 "[1,2]" (next_link "2").
Definition page_two : response := Response 200 "[3]" ∅.

(** A second page that comes back with status 500. *)
Definition page_two_failed : response := Response 500 "[3]" ∅.

(** Single responses. *)
Definition ok_empty_list : response := Response 200 "[]" ∅.
Definition ok_not_json : response := Response 200 "oops" ∅.
Definition not_found : response := Response 404 "oops" ∅.
Definition server_error : response := Response 500 "oops" ∅.

(** More responses: an acknowledgement without JSON, a creation, an error
    with a JSON body, and a page whose next link names no page. *)
Definition acknowledged : response := Response 204 "oops" ∅.
Definition created : response := Response 201 "[1,2]" ∅.
Definition unprocessable : response := Response 422 "[]" ∅.
Definition page_with_bad_link : response :=
  Response 200 "[1,2]"
           {[ "next" := Link "https://cbw.example/api/v3/servers" [("per_page", "100")] ]}.

(** Arguments of [create_remote_access]: a full description whose
    [auth_password] is empty, one that lacks its address, and one that
    names a stored credential only. *)
Definition full_info : dict :=
  <["type" := PStr "ssh"]>
  (<["address" := PStr "10.0.0.1"]>
  (<["port" := PInt 22]>
  (<["login" := PStr "root"]>
  (<["auth_password" := PStr ""]>
  (<["password" := PStr "pw"]>
  (<["node_id" := PInt 1]>
  (<["comment" := PStr "x"]> ∅))))))).
Definition info_without_address : dict := <["type" := PStr "ssh"]> ∅.
Definition credential_info : dict := <["credential_id" := PInt 3]> ∅.

(** A store holding one dictionary, at reference 0. *)
Definition one_dict (d : dict) : state := State {[ 0%nat := d ]} [] [].

(** ** What a run did to the state *)

Definition made_no_request {A} (s : state) (res : outcome A * state) : Prop :=
  trace res.2 = trace s.
Definition made_one_request {A} (s : state) (res : outcome A * state) : Prop :=
  exists req, trace res.2 = trace s ++ [req].
Definition wrote {A} (s : state) (res : outcome A * state) (new : list log_record)
    : Prop :=
  logs res.2 = logs s ++ new.

(** [sys.exit] with a non-zero status. *)
Definition terminates_process {A} (o : outcome A) : Prop :=
  exists code, o = Exit code /\ code <> 0.

(** ** Notions the statements use *)

(** The state once the page size is defaulted in the caller's dictionary. *)
Definition after_defaults (s : state) (l : loc) : state :=
  if bool_decide (is_Some (deref (heap s) l !! "per_page")) then s
  else State (<[l := <["per_page" := PInt 100]> (deref (heap s) l)]> (heap s))
             (trace s) (logs s).

(** [m] relates every state to the state it ends in by [R]. *)
Definition keeps {A} (R : state -> state -> Prop) (m : M A) : Prop :=
  forall s, R s (m s).2.

(** The store is untouched. *)
Definition same_heap (s s' : state) : Prop := heap s' = heap s.

(** The dictionary at [l] stays allocated and changes at most under the
    key [page]. *)
Definition page_only (l : loc) (s s' : state) : Prop :=
  (is_Some (heap s !! l) -> is_Some (heap s' !! l)) /\
  forall k, k <> "page" -> deref (heap s') l !! k = deref (heap s) l !! k.

(** [r] answered a request that was sent between [s] and [s']. *)
Definition answered_since (env : environment) (s s' : state) (r : response) : Prop :=
  exists before req after,
    trace s' = trace s ++ before ++ req :: after /\
    wire env (trace s ++ before) req = Responded r.

(** [p] is the page token of the next link of a response received between
    [s] and [s']. *)
Definition token_followed (env : environment) (s s' : state) (p : string) : Prop :=
  exists r lk ps,
    answered_since env s s' r /\
    links r !! "next" = Some lk /\
    parse_qs (link_query lk) !! "page" = Some (p :: ps).

(** From [s] to [s'] the trace only grew, and the entry [page] of the
    dictionary at [l] is as it was or holds a token followed since [s0]. *)
Definition page_outcome (env : environment) (s0 : state) (l : loc) (s s' : state)
    : Prop :=
  (exists post, trace s' = trace s ++ post) /\
  (deref (heap s') l !! "page" = deref (heap s) l !! "page" \/
   exists p, deref (heap s') l !! "page" = Some (PStr p) /\
             token_followed env s0 s' p).

(** What the operation does with a response it does not accept: one
    request went out, the result is the failure signal, and, when
    [keeps_body] holds, an error record written during the call carries
    the body of the response. *)
Definition rejected (keeps_body : Prop) (r : response) (s : state)
    (res : outcome retval * state) : Prop :=
  exists v new,
    res.1 = Ret v /\ failure v /\ made_one_request s res /\ wrote s res new /\
    (keeps_body -> Exists (carries_body (text r)) new).

Section Views.

Context (env : environment) (self : CBWApi).

(** The two branches of [_get_pages], named so that lemmas can speak of
    each; [_get_pages_some] and [_get_pages_none] below relate them to the
    method.  First the branch taken when [params] holds a page: one
    request. *)
Definition explicit_page (verb : string) (route : list pyval) (params : loc)
    : M pyval :=
  do body <- load params;
  do response <- _request env self verb route (Some body);
  do code <- getattr status_code response;
  if negb (code =? 200) then
    do t <- getattr text response;
    do_ logging_error "Error::{}" (Some (AText t));
    ret PNone
  else _cbw_parser env response.

(** The other branch: the first page, then the loop. *)
Definition all_pages (fuel : nat) (verb : string) (route : list pyval)
    (params : loc) : M pyval :=
  do body <- load params;
  do response <- _request env self verb route (Some body);
  do code <- getattr status_code response;
  if negb (code =? 200) then
    do t <- getattr text response;
    do_ logging_error "Error::{}" (Some (AText t));
    ret PNone
  else
    do items <- _cbw_parser env response;
    do response_list <- extend [] items;
    follow_next env self fuel verb route params response response_list.

(** [followed verb url tr d r rest]: starting from the response [r], with
    [tr] the requests made so far and [d] the parameters last sent, the
    server serves the pages [rest] when each next link is followed with
    its page token put under [page]; the last page carries no next link. *)
Inductive followed (verb url : string)
    : list request -> dict -> response -> list response -> Prop :=
| followed_done tr d r :
    links r !! "next" = None ->
    followed verb url tr d r []
| followed_step tr d r lk p ps r' rest :
    links r !! "next" = Some lk ->
    parse_qs (link_query lk) !! "page" = Some (p :: ps) ->
    wire env tr (the_request self verb url (Some (<["page" := PStr p]> d)))
      = Responded r' ->
    followed verb url
             (tr ++ [the_request self verb url (Some (<["page" := PStr p]> d))])
             (<["page" := PStr p]> d) r' rest ->
    followed verb url tr d r (r' :: rest).

(** The body of [r] is a JSON array holding [items]. *)
Definition holds_items (r : response) (items : list pyval) : Prop :=
  json_loads env (text r) = Decoded (PList items).

End Views.

(** ** Further readings of a call *)

(** The [params] argument of the collection methods, those that go through
    [_get_pages]. *)
Definition collection_params (c : call) : option (option loc) :=
  match c with
  | Call_servers p | Call_agents p | Call_remote_accesses p
  | Call_cve_announcements p | Call_groups p | Call_users p | Call_nodes p
  | Call_hosts p | Call_security_issues p | Call_compliance_servers p
  | Call_compliance_rules p => Some p
  | _ => None
  end.

(** The identifiers a call puts into its route, after the route constant. *)
Definition identifiers (c : call) : list pyval :=
  match c with
  | Call_server id | Call_server_refresh id | Call_update_server id _
  | Call_server_schedule_updates id _ | Call_delete_server id
  | Call_agent id | Call_delete_agent id | Call_remote_access id
  | Call_delete_remote_access id | Call_update_remote_access id _
  | Call_cve_announcement id | Call_update_cve_announcement id _
  | Call_delete_cve_announcement id | Call_group id | Call_update_group id _
  | Call_delete_group id | Call_test_deploy_remote_access id | Call_user id
  | Call_node id | Call_delete_node id _ | Call_host id | Call_update_host id _
  | Call_delete_host id | Call_security_issue id
  | Call_update_security_issue id _ | Call_delete_security_issue id
  | Call_fetch_importer_script id | Call_compliance_server id
  | Call_recheck_rules id | Call_compliance_rule id
  | Call_update_compliance_rule id _ | Call_delete_compliance_rule id
  | Call_recheck_servers id => [id]
  | Call_update_server_cve server_id cve_code _ => [server_id; cve_code]
  | _ => []
  end.

(** The value of the test that opens the methods written
    [if <id>: ... else: log; return False]. *)
Definition guard (c : call) : option bool :=
  match c with
  | Call_update_server id _ | Call_delete_server id | Call_delete_agent id
  | Call_delete_remote_access id | Call_update_compliance_rule id _
  | Call_delete_compliance_rule id => Some (truthy id)
  | Call_update_remote_access id info => Some (truthy id && truthy_dict info)
  | _ => None
  end.

(** The methods whose result is a boolean computed from the status code
    alone: [ping] and those that end in [verif_response]. *)
Definition status_verdict (c : call) (code : Z) : option bool :=
  match c with
  | Call_ping => Some (code =? 200)
  | Call_update_server _ _ | Call_delete_server _ | Call_delete_agent _
  | Call_delete_remote_access _ | Call_update_compliance_rule _ _
  | Call_delete_compliance_rule _ => Some ((200 <=? code) && (code <=? 299))
  | _ => None
  end.

(** The methods that never call [_cbw_parser]. *)
Definition status_only (c : call) : bool :=
  match c with
  | Call_ping | Call_upload_importer_results _
  | Call_update_server _ _ | Call_delete_server _ | Call_delete_agent _
  | Call_delete_remote_access _ | Call_update_compliance_rule _ _
  | Call_delete_compliance_rule _ => true
  | _ => false
  end.

(** The methods of the shape
    [response = _request(...); if status != code: log; return None;
     return _cbw_parser(response)]. *)
Definition checked_and_parsed (c : call) : bool :=
  match c with
  | Call_ping | Call_upload_importer_results _
  | Call_update_server _ _ | Call_delete_server _ | Call_delete_agent _
  | Call_delete_remote_access _ | Call_update_compliance_rule _ _
  | Call_delete_compliance_rule _
  | Call_create_remote_access _ | Call_update_remote_access _ _ => false
  | _ => negb (bool_decide (is_Some (collection_params c)))
  end.

(** A request as this client makes them: its credentials, its [verify]
    flag, and a route that starts with its base URL. *)
Definition from_client (self : CBWApi) (req : request) : Prop :=
  req_auth req = (api_key self, secret_key self) /\
  req_verify req = verify_ssl self /\
  exists path, req_route req = api_url self +:+ path.

(** The trace grew by requests that all satisfy [P]. *)
Definition sent_only (P : request -> Prop) (s s' : state) : Prop :=
  exists new, trace s' = trace s ++ new /\ Forall P new.

(** Every dictionary of the store other than [skip] is as it was. *)
Definition others_kept (skip : option loc) (s s' : state) : Prop :=
  forall l d, heap s !! l = Some d -> skip <> Some l -> heap s' !! l = Some d.

(** [d] agrees with [d0] on every key but [page]. *)
Definition same_filters (d0 d : dict) : Prop :=
  forall k, k <> "page" -> d !! k = d0 !! k.

(** A request whose body agrees with [d0] on every key but [page]. *)
Definition carries_filters (d0 : dict) (req : request) : Prop :=
  exists d, req_data req = Some d /\ same_filters d0 d.

(** The dictionary at [l] agrees with [d0] but for [page], and so do the
    bodies of the requests sent. *)
Definition filters_kept (d0 : dict) (l : loc) (s s' : state) : Prop :=
  same_filters d0 (deref (heap s) l) ->
  same_filters d0 (deref (heap s') l) /\ sent_only (carries_filters d0) s s'.

(** The body [create_remote_access] builds when [info] names no stored
    credential. *)
Definition remote_access_body (d : dict) (type address port login node_id : pyval)
    : dict :=
  <["type" := type]>
  (<["address" := address]>
  (<["port" := port]>
  (<["login" := login]>
  (<["password" := py_or (dict_get d "auth_password" PNone)
                         (dict_get d "password" PNone)]>
  (<["key" := py_or (dict_get d "priv_password" PNone) (dict_get d "key" PNone)]>
  (<["node_id" := node_id]>
  (<["server_groups" := dict_get d "server_groups" (PStr "")]> ∅))))))).

(** * Properties *)

Section Properties.

Context (env : environment) (self : CBWApi).

Local Arguments String.concat : simpl never.
Local Arguments String.append : simpl never.

(** ** The two helpers every method goes through *)

Lemma _request_eq verb payloads body s :
  _request env self verb payloads body s =
  match all_strings payloads with
  | None => (Raise TypeError, s)
  | Some segs =>
      let route := api_url self +:+ String.concat "/" segs in
      let req := the_request self verb route body in
      match wire env (trace s) req with
      | Responded r => (Ret (Some r), sent s req)
      | Failed e =>
          if connectivity_clause e then
            (Ret None, logged (sent s req) (connectivity_record route))
          else if decide (e = MissingSchema) then
            (Exit (-1), logged (sent s req) exit_diagnostic)
          else (Raise e, sent s req)
      end
  end.
Proof.
  unfold _request, _build_route, str_join, bind, try_except, requests_request.
  destruct (all_strings payloads) as [segs|]; simpl; [|reflexivity].
  destruct (wire env (trace s) _) as [r|e]; simpl; [reflexivity|].
  destruct e; reflexivity.
Qed.

Lemma _cbw_parser_eq r s :
  _cbw_parser env (Some r) s =
  match json_loads env (text r) with
  | Decoded v => (Ret v, s)
  | LoadsRaises TypeError =>
      (Raise UnboundLocalError,
       logged s (LogRecord ClassLogger LError
                           "An error occurred while parsing response" None))
  | LoadsRaises e => (Raise e, s)
  end.
Proof.
  unfold _cbw_parser, bind, try_except, getattr, ret. simpl.
  destruct (json_loads env (text r)) as [v|e]; simpl; [reflexivity|].
  destruct e; reflexivity.
Qed.

(** A failed parse never comes back as a value: whatever [json.loads]
    raises leaves [_cbw_parser] as an exception. *)
Lemma _cbw_parser_raises r s e :
  json_loads env (text r) = LoadsRaises e ->
  exists e', (_cbw_parser env (Some r) s).1 = Raise e' /\
             (e <> TypeError -> e' = e) /\
             (e = TypeError -> e' = UnboundLocalError).
Proof.
  intros H. rewrite _cbw_parser_eq, H.
  destruct e; simpl; eexists; (split; [reflexivity|]); split; congruence.
Qed.

(** ** Proof steps shared by the statements over every method *)

Ltac open_monad :=
  unfold bind, ret, raise, emit, logging_debug, logging_info, logging_error,
         logger_error, logger_exception, get_method, subscript, getitem, getattr,
         verif_response, new_dict, setitem, contains, load; simpl.

Ltac split_on_tests :=
  match goal with
  | |- context [all_strings ?l] => destruct (all_strings l) eqn:?
  | |- context [if truthy ?v then _ else _] => destruct (truthy v) eqn:?
  | |- context [if truthy_dict ?v then _ else _] => destruct (truthy_dict v) eqn:?
  | |- context [if bool_decide ?P then _ else _] => destruct (bool_decide P) eqn:?
  | |- context [if negb (bool_decide ?P) then _ else _] =>
      destruct (bool_decide P) eqn:?
  | |- context [match ?d !! ?k with _ => _ end] => destruct (d !! k) eqn:?
  | |- context [match ?d with Some _ => _ | None => _ end] => destruct d eqn:?
  | |- context [if ?b && ?c then _ else _] => destruct b eqn:?
  end.

(** Run a method up to the answer [H] gives to its first request. *)
Ltac first_request H :=
  repeat first [ progress open_monad | rewrite _request_eq | rewrite H
               | split_on_tests ].

Ltac unfold_call :=
  unfold run, ping, servers, server, server_refresh, update_server,
    server_schedule_updates, delete_server, update_server_cve, agents, agent,
    delete_agent, remote_accesses, create_remote_access, remote_access,
    delete_remote_access, update_remote_access, cve_announcement, cve_announcements,
    update_cve_announcement, delete_cve_announcement, groups, group, create_group,
    update_group, delete_group, test_deploy_remote_access, users, user, nodes, node,
    delete_node, hosts, host, create_host, update_host, delete_host, security_issues,
    security_issue, create_security_issue, update_security_issue,
    delete_security_issue, fetch_importer_scripts, fetch_importer_script,
    upload_importer_results, compliance_servers, compliance_server, recheck_rules,
    compliance_rules, compliance_rule, create_compliance_rule, update_compliance_rule,
    delete_compliance_rule, recheck_servers.

(** Membership of a record in an explicit list. *)
Ltac find_record :=
  simpl; first [ apply list_elem_of_here
               | apply list_elem_of_further; find_record ].

(** The collection methods only wrap [_get_pages]: name its result. *)
Ltac name_pages L :=
  unfold bind;
  match goal with
  | |- context [_get_pages ?e ?c ?f ?v ?r ?p ?s] =>
      let E := fresh "E" in
      pose proof L as E;
      destruct (_get_pages e c f v r p s) as [[?|?|?|] ?]
  end.

(** ** Configuration failure: [MissingSchema] *)

Lemma _request_missing_schema verb payloads body segs s :
  all_strings payloads = Some segs ->
  wire env (trace s)
       (the_request self verb (api_url self +:+ String.concat "/" segs) body)
    = Failed MissingSchema ->
  _request env self verb payloads body s =
    (Exit (-1),
     logged (sent s (the_request self verb
                       (api_url self +:+ String.concat "/" segs) body))
            exit_diagnostic).
Proof. intros Hs Hw. rewrite _request_eq, Hs. simpl. rewrite Hw. reflexivity. Qed.

Lemma _get_pages_missing_schema fuel verb route params s :
  (forall req, wire env (trace s) req = Failed MissingSchema) ->
  made_no_request s (_get_pages env self fuel verb route params s) \/
  (terminates_process (_get_pages env self fuel verb route params s).1 /\
   made_one_request s (_get_pages env self fuel verb route params s) /\
   last (logs (_get_pages env self fuel verb route params s).2) = Some exit_diagnostic).
Proof.
  intros H. unfold made_no_request, made_one_request, terminates_process, _get_pages.
  first_request H.
  all: try (left; reflexivity).
  all: right; split; [eexists; split; [reflexivity | lia]
                     | split; [eexists; reflexivity | apply last_snoc]].
Qed.

(** C8. When the base URL has no scheme, [requests] raises [MissingSchema]
    for every route built from it.  Then [_request] logs the diagnostic
    and ends the process with status -1, and so does every public method
    at its first request: it either sends nothing at all, or it sends one
    request and the process exits with a non-zero status, the diagnostic
    being the last thing logged; no value is returned. *)
Theorem missing_schema_terminates fuel c s :
  (forall req, wire env (trace s) req = Failed MissingSchema) ->
  (forall verb payloads body segs,
      all_strings payloads = Some segs ->
      _request env self verb payloads body s =
        (Exit (-1),
         logged (sent s (the_request self verb
                           (api_url self +:+ String.concat "/" segs) body))
                exit_diagnostic)) /\
  (made_no_request s (run env self fuel c s) \/
   (terminates_process (run env self fuel c s).1 /\
    made_one_request s (run env self fuel c s) /\
    last (logs (run env self fuel c s).2) = Some exit_diagnostic)).
Proof.
  intros H. split.
  { intros. apply _request_missing_schema; auto. }
  destruct c; unfold_call;
    lazymatch goal with
    | |- context [_get_pages _ _ _ ?v ?r ?p] =>
        name_pages (_get_pages_missing_schema fuel v r p s H);
        unfold made_no_request, made_one_request, terminates_process in *;
        simpl in *;
        (destruct E as [E|[[k [E1 E2]] [E3 E4]]];
         [ left; exact E
         | first [ discriminate
                 | right; split;
                   [ exists k; split; [injection E1 as ->; reflexivity | exact E2]
                   | split; assumption ] ] ])
    | _ =>
        unfold made_no_request, made_one_request, terminates_process;
        first_request H;
        first [ left; reflexivity
              | right; split; [eexists; split; [reflexivity | lia]
                              | split; [eexists; reflexivity | apply last_snoc]] ]
    end.
Qed.

(** ** Connectivity failure *)

Lemma _get_pages_connectivity fuel verb route params s e :
  connectivity_clause e = true ->
  (forall req, wire env (trace s) req = Failed e) ->
  made_no_request s (_get_pages env self fuel verb route params s) \/
  ((_get_pages env self fuel verb route params s).1 = Raise AttributeError /\
   made_one_request s (_get_pages env self fuel verb route params s) /\
   exists url new,
     wrote s (_get_pages env self fuel verb route params s) new /\
     connectivity_record url ∈ new).
Proof.
  intros He H. unfold made_no_request, made_one_request, wrote, _get_pages.
  first_request H; rewrite ?He; first_request H.
  all: try (left; reflexivity).
  all: right; split; [reflexivity|]; split; [eexists; reflexivity|];
       eexists _, _; split; [reflexivity | apply list_elem_of_here].
Qed.

(** When the transport raises one of the classes [_request] handles, the
    failure is logged and [_request] returns [None]; no method tests for
    that, so each of them, once it has sent its request, ends with
    [AttributeError]. *)
Lemma connectivity_failure_escapes fuel c s e :
  connectivity_clause e = true ->
  (forall req, wire env (trace s) req = Failed e) ->
  made_no_request s (run env self fuel c s) \/
  ((run env self fuel c s).1 = Raise AttributeError /\
   made_one_request s (run env self fuel c s) /\
   exists url new,
     wrote s (run env self fuel c s) new /\ connectivity_record url ∈ new).
Proof.
  intros He H.
  destruct c; unfold_call;
    lazymatch goal with
    | |- context [_get_pages _ _ _ ?v ?r ?p] =>
        name_pages (_get_pages_connectivity fuel v r p s e He H);
        unfold made_no_request, made_one_request, wrote in *; simpl in *;
        (destruct E as [E|[E1 [E2 E3]]];
         [ left; exact E
         | first [ discriminate
                 | right; split; [injection E1 as ->; reflexivity | split; assumption] ] ])
    | _ =>
        unfold made_no_request, made_one_request, wrote;
        first_request H; rewrite ?He; first_request H;
        first [ left; reflexivity
              | right; split; [reflexivity|]; split; [eexists; reflexivity|];
                eexists _, _; rewrite <- ?app_assoc; split;
                [reflexivity | find_record] ]
    end.
Qed.

(** ** Unbound [response] in [create_remote_access] *)

(** C10. With an empty or absent [info], [create_remote_access] skips the
    block that binds [response] and then reads it: the call raises
    [UnboundLocalError]; nothing is sent and nothing is logged. *)
Theorem create_remote_access_unbound (info : option dict) (s : state) :
  truthy_dict info = false ->
  create_remote_access env self info s = (Raise UnboundLocalError, s).
Proof.
  intros H. unfold create_remote_access, bind. rewrite H. reflexivity.
Qed.

(** ** Unexpected status codes *)

Ltac first_response H Hcode :=
  repeat first [ progress open_monad | rewrite _request_eq | rewrite H
               | rewrite Hcode | split_on_tests ].

Lemma _get_pages_unexpected fuel verb route params r s :
  (status_code r =? 200) = false ->
  (forall req, wire env (trace s) req = Responded r) ->
  made_no_request s (_get_pages env self fuel verb route params s) \/
  ((_get_pages env self fuel verb route params s).1 = Ret PNone /\
   made_one_request s (_get_pages env self fuel verb route params s) /\
   wrote s (_get_pages env self fuel verb route params s)
         [LogRecord RootLogger LError "Error::{}" (Some (AText (text r)))]).
Proof.
  intros Hcode H. unfold made_no_request, made_one_request, wrote, _get_pages.
  first_response H Hcode.
  all: first [ left; reflexivity
             | right; split; [reflexivity|]; split; [eexists|]; reflexivity ].
Qed.

Ltac close_rejected :=
  first [ left; reflexivity
        | right; eexists _, _; split; [reflexivity|];
          split; [first [left; reflexivity | right; reflexivity]|];
          split; [eexists; reflexivity|];
          split; [rewrite <- ?app_assoc; reflexivity|];
          intros Hkeep; simpl;
          first [ exfalso; apply Hkeep; reflexivity
                | repeat first [ apply Exists_cons_hd; repeat split; reflexivity
                               | apply Exists_cons_tl ] ] ].

(** C6, as the code has it.  For every public method that tests the
    status code, when the response to its first request has a code
    outside the accepted set, the method returns the failure signal after
    that single request; it logs the body of the response at error level,
    except [ping], which logs only [FAILED]. *)
Theorem unexpected_status_is_failure fuel c cs r s :
  expected c = Some cs ->
  in_code_set cs (status_code r) = false ->
  (forall req, wire env (trace s) req = Responded r) ->
  made_no_request s (run env self fuel c s) \/
  rejected (c <> Call_ping) r s (run env self fuel c s).
Proof.
  intros Hexp Hcode H.
  destruct c; simpl in Hexp; try discriminate;
    injection Hexp as <-; simpl in Hcode; unfold_call;
    lazymatch goal with
    | |- context [_get_pages _ _ _ ?v ?p ?q] =>
        name_pages (_get_pages_unexpected fuel v p q r s Hcode H);
        unfold rejected, made_no_request, made_one_request, wrote in *; simpl in *;
        (destruct E as [E|[E1 [E2 E3]]];
         [ left; exact E
         | first [ discriminate
                 | right; injection E1 as ->; eexists _, _;
                   split; [reflexivity|]; split; [left; reflexivity|];
                   split; [exact E2|]; split; [exact E3|];
                   intros _; apply Exists_cons_hd; repeat split; reflexivity ] ])
    | _ =>
        unfold rejected, made_no_request, made_one_request, wrote;
        first_response H Hcode; close_rejected
    end.
Qed.

(** ** The two halves of [_get_pages] *)

Lemma deref_insert h l d : deref (<[l := d]> h) l = d.
Proof. unfold deref. by rewrite lookup_insert_eq. Qed.

Lemma deref_after_defaults s l :
  deref (heap (after_defaults s l)) l = effective_params (heap s) (Some l).
Proof.
  unfold after_defaults, effective_params.
  destruct (bool_decide _); simpl; [reflexivity | apply deref_insert].
Qed.

Lemma _get_pages_some fuel verb route l s :
  _get_pages env self fuel verb route (Some l) s =
  (if bool_decide (is_Some (effective_params (heap s) (Some l) !! "page"))
   then explicit_page env self verb route l
   else all_pages env self fuel verb route l) (after_defaults s l).
Proof.
  rewrite <- deref_after_defaults.
  unfold _get_pages, after_defaults, bind, contains, ret. simpl.
  destruct (bool_decide (is_Some (deref (heap s) l !! "per_page"))); reflexivity.
Qed.

Lemma _get_pages_none fuel verb route s :
  _get_pages env self fuel verb route None s =
  all_pages env self fuel verb route (fresh (dom (heap s)))
    (State (<[fresh (dom (heap s)) := <["per_page" := PInt 100]> ∅]> (heap s))
           (trace s) (logs s)).
Proof.
  unfold _get_pages, bind, new_dict, setitem, contains, ret. simpl.
  rewrite !deref_insert, insert_insert_eq, lookup_insert_eq.
  rewrite bool_decide_eq_true_2 by eauto. simpl.
  rewrite deref_insert, lookup_insert_ne by discriminate.
  rewrite lookup_empty, bool_decide_eq_false_2 by apply is_Some_None.
  reflexivity.
Qed.

(** ** What a computation leaves alone *)

Section Keeps.
Context (R : state -> state -> Prop) `{!Reflexive R} `{!Transitive R}.
Hypothesis R_log : forall s r, R s (logged s r).
Hypothesis R_sent : forall s req, R s (sent s req).

Lemma keeps_ret {A} (a : A) : keeps R (ret a).
Proof. intros s. reflexivity. Qed.
Lemma keeps_raise {A} e : keeps R (@raise A e).
Proof. intros s. reflexivity. Qed.
Lemma keeps_sys_exit {A} c : keeps R (@sys_exit A c).
Proof. intros s. reflexivity. Qed.
Lemma keeps_out_of_fuel {A} : keeps R (@out_of_fuel A).
Proof. intros s. reflexivity. Qed.

Lemma keeps_bind {A B} (m : M A) (k : A -> M B) :
  keeps R m -> (forall a, keeps R (k a)) -> keeps R (bind m k).
Proof.
  intros Hm Hk s. unfold bind. specialize (Hm s).
  destruct (m s) as [[a|e|c|] s1]; simpl in *; try exact Hm.
  etransitivity; [exact Hm | apply Hk].
Qed.

Lemma keeps_try_except {A} (body : M A) handler :
  keeps R body -> (forall e h, handler e = Some h -> keeps R h) ->
  keeps R (try_except body handler).
Proof.
  intros Hb Hh s. unfold try_except. specialize (Hb s).
  destruct (body s) as [[a|e|c|] s1]; simpl in *; try exact Hb.
  destruct (handler e) as [h|] eqn:E; [|exact Hb].
  etransitivity; [exact Hb | eapply Hh; eauto].
Qed.

Lemma keeps_emit r : keeps R (emit r).
Proof. intros s. apply R_log. Qed.
Lemma keeps_getattr {A} (f : response -> A) r : keeps R (getattr f r).
Proof. destruct r; [apply keeps_ret | apply keeps_raise]. Qed.
Lemma keeps_load l : keeps R (load l).
Proof. intros s. reflexivity. Qed.
Lemma keeps_next_page lk : keeps R (next_page lk).
Proof.
  unfold next_page. destruct (_ !! _) as [[|p ps]|];
    first [apply keeps_ret | apply keeps_raise].
Qed.
Lemma keeps_extend l v : keeps R (extend l v).
Proof. unfold extend. destruct (py_iter v); [apply keeps_ret | apply keeps_raise]. Qed.

Lemma keeps_cbw_parser r : keeps R (_cbw_parser env r).
Proof.
  unfold _cbw_parser. apply keeps_bind.
  - apply keeps_try_except.
    + apply keeps_bind; [apply keeps_getattr|].
      intros t. destruct (json_loads env t); [apply keeps_ret | apply keeps_raise].
    + intros e h He. destruct e; try discriminate. injection He as <-.
      apply keeps_bind; [apply keeps_emit | intros; apply keeps_ret].
  - intros [v|]; [apply keeps_ret | apply keeps_raise].
Qed.

Lemma keeps_request verb payloads body : keeps R (_request env self verb payloads body).
Proof.
  intros s. rewrite _request_eq.
  destruct (all_strings payloads); simpl; [|reflexivity].
  destruct (wire env _ _) as [r|e]; simpl; [apply R_sent|].
  destruct (connectivity_clause e); simpl;
    [etransitivity; [apply R_sent | apply R_log]|].
  destruct (decide _); simpl; [etransitivity; [apply R_sent | apply R_log]|].
  apply R_sent.
Qed.

Lemma keeps_explicit_page verb route l :
  keeps R (explicit_page env self verb route l).
Proof.
  unfold explicit_page.
  apply keeps_bind; [apply keeps_load | intros body].
  apply keeps_bind; [apply keeps_request | intros response].
  apply keeps_bind; [apply keeps_getattr | intros code].
  destruct (negb _); [|apply keeps_cbw_parser].
  apply keeps_bind; [apply keeps_getattr | intros t].
  apply keeps_bind; [apply keeps_emit | intros; apply keeps_ret].
Qed.

Lemma keeps_follow_next fuel verb route l :
  (forall p, keeps R (setitem l "page" p)) ->
  forall response response_list,
    keeps R (follow_next env self fuel verb route l response response_list).
Proof.
  intros Hset. induction fuel as [|fuel IH]; intros response response_list; simpl.
  - apply keeps_bind; [apply keeps_getattr | intros lks].
    destruct (lks !! "next"); [apply keeps_out_of_fuel | apply keeps_ret].
  - apply keeps_bind; [apply keeps_getattr | intros lks].
    destruct (lks !! "next"); [|apply keeps_ret].
    apply keeps_bind; [apply keeps_next_page | intros page].
    apply keeps_bind; [apply Hset | intros _].
    apply keeps_bind; [apply keeps_load | intros body].
    apply keeps_bind; [apply keeps_request | intros response'].
    apply keeps_bind; [apply keeps_cbw_parser | intros items].
    apply keeps_bind; [apply keeps_extend | intros response_list'].
    apply IH.
Qed.

Lemma keeps_all_pages fuel verb route l :
  (forall p, keeps R (setitem l "page" p)) ->
  keeps R (all_pages env self fuel verb route l).
Proof.
  intros Hset. unfold all_pages.
  apply keeps_bind; [apply keeps_load | intros body].
  apply keeps_bind; [apply keeps_request | intros response].
  apply keeps_bind; [apply keeps_getattr | intros code].
  destruct (negb _).
  - apply keeps_bind; [apply keeps_getattr | intros t].
    apply keeps_bind; [apply keeps_emit | intros; apply keeps_ret].
  - apply keeps_bind; [apply keeps_cbw_parser | intros items].
    apply keeps_bind; [apply keeps_extend | intros response_list].
    apply keeps_follow_next, Hset.
Qed.
End Keeps.

(** ** The caller's dictionary *)

Local Instance same_heap_refl : Reflexive same_heap.
Proof. intros s. reflexivity. Qed.
Local Instance same_heap_trans : Transitive same_heap.
Proof. unfold same_heap. intros s1 s2 s3 H1 H2. congruence. Qed.
Local Instance page_only_refl l : Reflexive (page_only l).
Proof. intros s. split; auto. Qed.
Local Instance page_only_trans l : Transitive (page_only l).
Proof.
  intros s1 s2 s3 [A1 B1] [A2 B2]. split; [auto|].
  intros k Hk. rewrite B2, B1; auto.
Qed.

Lemma setitem_page_only l p : keeps (page_only l) (setitem l "page" p).
Proof.
  intros s. unfold setitem, page_only. simpl. split.
  - intros _. rewrite lookup_insert_eq. eauto.
  - intros k Hk. rewrite deref_insert, lookup_insert_ne; auto.
Qed.

Lemma explicit_page_heap verb route l s :
  heap (explicit_page env self verb route l s).2 = heap s.
Proof. apply (keeps_explicit_page same_heap); reflexivity. Qed.

Lemma all_pages_heap fuel verb route l s :
  page_only l s (all_pages env self fuel verb route l s).2.
Proof.
  apply (keeps_all_pages (page_only l)).
  - intros; split; auto.
  - intros; split; auto.
  - apply setitem_page_only.
Qed.

Lemma effective_params_other h l k :
  k <> "per_page" -> effective_params h (Some l) !! k = deref h l !! k.
Proof.
  intros Hk. unfold effective_params. destruct (bool_decide _); [reflexivity|].
  rewrite lookup_insert_ne; auto.
Qed.

Lemma effective_params_per_page h l :
  effective_params h (Some l) !! "per_page"
  = Some (default (PInt 100) (deref h l !! "per_page")).
Proof.
  unfold effective_params. destruct (bool_decide _) eqn:E.
  - apply bool_decide_eq_true_1 in E. destruct E as [v ->]. reflexivity.
  - apply bool_decide_eq_false_1 in E.
    rewrite lookup_insert_eq.
    destruct (_ !! _) eqn:E'; [exfalso; eauto | reflexivity].
Qed.

Lemma after_defaults_lookup s l d :
  heap s !! l = Some d ->
  heap (after_defaults s l) !! l = Some (effective_params (heap s) (Some l)).
Proof.
  intros H. unfold after_defaults, effective_params.
  destruct (bool_decide _); simpl.
  - unfold deref. rewrite H. reflexivity.
  - apply lookup_insert_eq.
Qed.

(** *** Where the entry [page] comes from *)

Lemma _request_answer verb payloads body s :
  heap (_request env self verb payloads body s).2 = heap s /\
  exists post,
    trace (_request env self verb payloads body s).2 = trace s ++ post /\
    forall r, (_request env self verb payloads body s).1 = Ret (Some r) ->
              exists req, post = [req] /\ wire env (trace s) req = Responded r.
Proof.
  rewrite _request_eq.
  destruct (all_strings payloads) as [segs|]; simpl.
  2: { split; [reflexivity|]. exists []. rewrite app_nil_r.
       split; [reflexivity | discriminate]. }
  destruct (wire env (trace s) _) as [r|e] eqn:Hw; simpl.
  - split; [reflexivity|]. eexists. split; [reflexivity|].
    intros r' [= <-]. eexists. split; [reflexivity | exact Hw].
  - destruct (connectivity_clause e); simpl.
    { split; [reflexivity|]. eexists. split; [reflexivity | discriminate]. }
    destruct (decide _); simpl;
      (split; [reflexivity|]; eexists; (split; [reflexivity | discriminate])).
Qed.

Lemma _cbw_parser_same response s :
  heap (_cbw_parser env response s).2 = heap s /\
  trace (_cbw_parser env response s).2 = trace s.
Proof.
  destruct response as [r|]; [|split; reflexivity].
  rewrite _cbw_parser_eq. destruct (json_loads env (text r)) as [v|[]]; split; reflexivity.
Qed.

Lemma answered_since_later s0 s s' r post :
  answered_since env s0 s r -> trace s' = trace s ++ post ->
  answered_since env s0 s' r.
Proof.
  intros (before & req & after & Ht & Hw) Hs'.
  exists before, req, (after ++ post). split; [|exact Hw].
  rewrite Hs', Ht, <- !app_assoc. reflexivity.
Qed.

Lemma page_outcome_same s0 l s s' :
  heap s' = heap s -> trace s' = trace s -> page_outcome env s0 l s s'.
Proof.
  intros Hh Ht. split.
  - exists []. rewrite Ht, app_nil_r. reflexivity.
  - left. rewrite Hh. reflexivity.
Qed.

(** Once the token of a next link of [r] is written under [page]. *)
Lemma page_outcome_written s0 l s s' r lk p ps post :
  answered_since env s0 s r ->
  links r !! "next" = Some lk ->
  parse_qs (link_query lk) !! "page" = Some (p :: ps) ->
  trace s' = trace s ++ post ->
  deref (heap s') l !! "page" = Some (PStr p) ->
  page_outcome env s0 l s s'.
Proof.
  intros Hans Hnext Hqs Ht Hp. split; [eauto|]. right. exists p. split; [exact Hp|].
  exists r, lk, ps. split; [|split; assumption].
  eapply answered_since_later; eauto.
Qed.

Lemma follow_next_page s0 l verb route fuel :
  forall response acc s,
    (exists pre, trace s = trace s0 ++ pre) ->
    (forall r, response = Some r -> answered_since env s0 s r) ->
    page_outcome env s0 l s (follow_next env self fuel verb route l response acc s).2.
Proof.
  induction fuel as [|fuel IH]; intros response acc s [pre Hpre] Hans;
    (destruct response as [r|]; [|by apply page_outcome_same]);
    specialize (Hans r eq_refl); simpl; unfold bind at 1; simpl;
    (destruct (links r !! "next") as [lk|] eqn:Hnext; [|by apply page_outcome_same]).
  { by apply page_outcome_same. }
  unfold bind at 1, next_page.
  destruct (parse_qs (link_query lk) !! "page") as [[|p ps]|] eqn:Hqs;
    try (by apply page_outcome_same).
  unfold ret at 1. unfold bind at 1, setitem at 1. unfold bind at 1, load at 1.
  set (s1 := State (<[l := <["page" := PStr p]> (deref (heap s) l)]> (heap s))
                   (trace s) (logs s)).
  assert (Hp1 : deref (heap s1) l !! "page" = Some (PStr p)).
  { unfold s1. simpl. rewrite deref_insert. apply lookup_insert_eq. }
  unfold bind at 1.
  destruct (_request_answer verb route (Some (deref (heap s1) l)) s1)
    as (Hh2 & post & Ht2 & Hr).
  destruct (_request env self verb route (Some (deref (heap s1) l)) s1)
    as [o2 s2] eqn:E2. simpl in Hh2, Ht2, Hr.
  assert (Hp2 : deref (heap s2) l !! "page" = Some (PStr p)) by (rewrite Hh2; exact Hp1).
  destruct o2 as [response'|e|c|];
    try (eapply page_outcome_written; eauto; fail).
  unfold bind at 1.
  destruct (_cbw_parser_same response' s2) as (Hh3 & Ht3).
  destruct (_cbw_parser env response' s2) as [o3 s3] eqn:E3. simpl in Hh3, Ht3.
  assert (Hp3 : deref (heap s3) l !! "page" = Some (PStr p)) by (rewrite Hh3; exact Hp2).
  assert (Ht3' : trace s3 = trace s ++ post) by (rewrite Ht3; exact Ht2).
  destruct o3 as [items|e|c|];
    try (eapply page_outcome_written; eauto; fail).
  unfold bind at 1, extend.
  destruct (py_iter items) as [its|];
    [|simpl; eapply page_outcome_written; eauto].
  simpl.
  destruct (IH response' (acc ++ its) s3) as [[post' Ht'] Hpage].
  { exists (pre ++ post). rewrite Ht3', Hpre, app_assoc. reflexivity. }
  { intros r' ->. destruct (Hr r' eq_refl) as (req & -> & Hw).
    exists pre, req, []. split; [rewrite Ht3', Hpre, <- app_assoc; reflexivity|].
    rewrite <- Hpre. exact Hw. }
  assert (Hlater : trace (follow_next env self fuel verb route l response' (acc ++ its) s3).2
                   = trace s ++ (post ++ post'))
    by (rewrite Ht', Ht3', app_assoc; reflexivity).
  destruct Hpage as [Hsame | (p' & Hp' & Htok)].
  - eapply page_outcome_written; eauto. rewrite Hsame. exact Hp3.
  - split; [eauto|]. right. exists p'. split; assumption.
Qed.

Lemma page_outcome_kept s0 l s s' post :
  heap s' = heap s -> trace s' = trace s ++ post -> page_outcome env s0 l s s'.
Proof. intros Hh Ht. split; [eauto|]. left. rewrite Hh. reflexivity. Qed.

Lemma all_pages_page fuel verb route l s :
  page_outcome env s l s (all_pages env self fuel verb route l s).2.
Proof.
  unfold all_pages. unfold bind at 1, load at 1. unfold bind at 1.
  destruct (_request_answer verb route (Some (deref (heap s) l)) s)
    as (Hh2 & post & Ht2 & Hr).
  destruct (_request env self verb route (Some (deref (heap s) l)) s)
    as [o2 s2] eqn:E2. simpl in Hh2, Ht2, Hr.
  destruct o2 as [response|e|c|]; try (eapply page_outcome_kept; eauto; fail).
  destruct response as [r1|]; [|eapply page_outcome_kept; eauto].
  unfold bind at 1. simpl.
  destruct (negb (status_code r1 =? 200)); [eapply page_outcome_kept; eauto|].
  unfold bind at 1.
  destruct (_cbw_parser_same (Some r1) s2) as (Hh3 & Ht3).
  destruct (_cbw_parser env (Some r1) s2) as [o3 s3] eqn:E3. simpl in Hh3, Ht3.
  assert (Hh3' : heap s3 = heap s) by congruence.
  assert (Ht3' : trace s3 = trace s ++ post) by congruence.
  destruct o3 as [items|e|c|]; try (eapply page_outcome_kept; eauto; fail).
  unfold bind at 1, extend.
  destruct (py_iter items) as [its|]; [|simpl; eapply page_outcome_kept; eauto].
  simpl.
  destruct (follow_next_page s l verb route fuel (Some r1) its s3)
    as [[post' Ht'] Hpage].
  { eauto. }
  { intros r [= <-]. destruct (Hr r1 eq_refl) as (req & -> & Hw).
    exists [], req, []. rewrite app_nil_r. split; [exact Ht3' | exact Hw]. }
  split.
  - exists (post ++ post'). rewrite Ht', Ht3', app_assoc. reflexivity.
  - rewrite <- Hh3'. exact Hpage.
Qed.

Lemma token_followed_from s s1 s' p :
  trace s1 = trace s -> token_followed env s1 s' p -> token_followed env s s' p.
Proof.
  intros Ht (r & lk & ps & (before & req & after & Htr & Hw) & Hnext & Hqs).
  exists r, lk, ps. split; [|split; assumption].
  exists before, req, after. rewrite <- Ht. split; assumption.
Qed.

(** C9, as the code has it.  [_get_pages] works on the caller's
    dictionary itself: after the call it holds [per_page] (100 when the
    caller gave none), every key other than [per_page] and [page] has the
    value it had, [page] is untouched when the caller gave one, and a
    dictionary that came with both keys is exactly as it was.  When the
    caller gave no [page], the dictionary ends without one, or with the
    page token of the next link of a response received during the call. *)
Theorem params_updated_in_place fuel verb route l d s :
  heap s !! l = Some d ->
  exists d',
    heap (_get_pages env self fuel verb route (Some l) s).2 !! l = Some d' /\
    (forall k, k <> "per_page" -> k <> "page" -> d' !! k = d !! k) /\
    d' !! "per_page" = Some (default (PInt 100) (d !! "per_page")) /\
    (is_Some (d !! "page") -> d' !! "page" = d !! "page") /\
    (is_Some (d !! "per_page") -> is_Some (d !! "page") -> d' = d) /\
    (d !! "page" = None ->
     d' !! "page" = None \/
     exists p, d' !! "page" = Some (PStr p) /\
               token_followed env s (_get_pages env self fuel verb route (Some l) s).2 p).
Proof.
  intros Hd.
  assert (Hderef : deref (heap s) l = d) by (unfold deref; by rewrite Hd).
  pose proof (after_defaults_lookup s l d Hd) as H1.
  pose proof (effective_params_per_page (heap s) l) as Hpp.
  assert (Hother : forall k, k <> "per_page" ->
            effective_params (heap s) (Some l) !! k = d !! k).
  { intros k Hk. rewrite effective_params_other, Hderef; auto. }
  rewrite Hderef in Hpp.
  rewrite _get_pages_some.
  destruct (bool_decide _) eqn:Hpage.
  - apply bool_decide_eq_true_1 in Hpage.
    exists (effective_params (heap s) (Some l)).
    rewrite explicit_page_heap. split; [exact H1|].
    split; [intros; apply Hother; auto|]. split; [exact Hpp|].
    split; [intros; apply Hother; discriminate|].
    split.
    + intros [v Hv] _. unfold effective_params.
      rewrite Hderef, Hv, bool_decide_eq_true_2 by eauto. reflexivity.
    + intros Hnone. left. rewrite Hother by discriminate. exact Hnone.
  - apply bool_decide_eq_false_1 in Hpage.
    destruct (all_pages_heap fuel verb route l (after_defaults s l)) as [A B].
    destruct A as [d' Hd']; [rewrite H1; eauto|].
    assert (Hsame : forall k, k <> "page" ->
              d' !! k = effective_params (heap s) (Some l) !! k).
    { intros k Hk. specialize (B k Hk). unfold deref in B.
      rewrite Hd', H1 in B. exact B. }
    exists d'. split; [exact Hd'|].
    split; [intros k Hk1 Hk2; rewrite Hsame, Hother; auto|].
    split; [rewrite Hsame by discriminate; exact Hpp|].
    assert (Hnone : ~ is_Some (d !! "page")).
    { intros Hs. apply Hpage. rewrite Hother by discriminate. exact Hs. }
    split; [intros; exfalso; auto|].
    split; [intros; exfalso; auto|].
    intros Hno.
    assert (Ht : trace (after_defaults s l) = trace s)
      by (unfold after_defaults; destruct (bool_decide _); reflexivity).
    destruct (all_pages_page fuel verb route l (after_defaults s l)) as [_ Hp].
    unfold deref in Hp. rewrite Hd', H1 in Hp. simpl in Hp.
    destruct Hp as [Hkept | (p & Hp & Htok)].
    + left. rewrite Hkept, Hother by discriminate. exact Hno.
    + right. exists p. split; [exact Hp|].
      eapply token_followed_from; [exact Ht | exact Htok].
Qed.

(** ** An explicit page *)

Lemma _cbw_parser_outcome r s s' :
  (_cbw_parser env (Some r) s).1 = (_cbw_parser env (Some r) s').1.
Proof.
  rewrite !_cbw_parser_eq. destruct (json_loads env (text r)) as [v|[]]; reflexivity.
Qed.

Lemma _cbw_parser_trace r s : trace (_cbw_parser env (Some r) s).2 = trace s.
Proof.
  rewrite _cbw_parser_eq. destruct (json_loads env (text r)) as [v|[]]; reflexivity.
Qed.

(** C5. When the caller's [params] holds [page], [_get_pages] sends
    exactly one request, carrying those parameters (with the page size
    defaulted), and follows no link; when that request is answered with
    status 200, what [_get_pages] hands back is what [_cbw_parser] makes
    of that response. *)
Theorem explicit_page_one_request fuel verb route segs l s :
  all_strings route = Some segs ->
  is_Some (deref (heap s) l !! "page") ->
  trace (_get_pages env self fuel verb route (Some l) s).2
  = trace s ++ [the_request self verb (api_url self +:+ String.concat "/" segs)
                  (Some (effective_params (heap s) (Some l)))] /\
  forall r,
    wire env (trace s)
         (the_request self verb (api_url self +:+ String.concat "/" segs)
            (Some (effective_params (heap s) (Some l)))) = Responded r ->
    status_code r = 200 ->
    (_get_pages env self fuel verb route (Some l) s).1
    = (_cbw_parser env (Some r) s).1.
Proof.
  intros Hroute Hpage.
  rewrite _get_pages_some.
  rewrite bool_decide_eq_true_2
    by (rewrite effective_params_other by discriminate; exact Hpage).
  assert (Ht : trace (after_defaults s l) = trace s).
  { unfold after_defaults. destruct (bool_decide _); reflexivity. }
  unfold explicit_page, bind, load. simpl.
  rewrite _request_eq, Hroute, deref_after_defaults, Ht. simpl.
  destruct (wire env (trace s) _) as [r|e] eqn:Hw.
  - simpl. destruct (status_code r =? 200) eqn:Hc; simpl.
    + split; [rewrite _cbw_parser_trace; simpl; by rewrite Ht|].
      intros r' [= <-] _. apply _cbw_parser_outcome.
    + split; [simpl; by rewrite Ht|].
      intros r' [= <-] Hc'. rewrite Hc' in Hc. discriminate.
  - split; [|discriminate].
    destruct (connectivity_clause e); simpl; [by rewrite Ht|].
    destruct (decide _); simpl; by rewrite Ht.
Qed.

(** ** Following the next links *)

Lemma follow_next_followed verb route segs l tr d r rest :
  all_strings route = Some segs ->
  followed env self verb (api_url self +:+ String.concat "/" segs) tr d r rest ->
  forall fuel s acc items,
    trace s = tr ->
    deref (heap s) l = d ->
    Forall2 (holds_items env) rest items ->
    (length rest <= fuel)%nat ->
    exists s',
      follow_next env self fuel verb route l (Some r) acc s
      = (Ret (PList (acc ++ concat items)), s') /\
      length (trace s') = (length tr + length rest)%nat.
Proof.
  intros Hroute Hf.
  induction Hf as [tr d r Hnone | tr d r lk p ps r' rest Hnext Hpage Hwire Hf IH];
    intros fuel s acc items Htr Hd Hitems Hfuel.
  - apply Forall2_nil_inv_l in Hitems as ->.
    exists s. subst tr.
    destruct fuel; simpl; unfold bind; simpl; rewrite Hnone; simpl;
      rewrite app_nil_r; split; (reflexivity || lia).
  - apply Forall2_cons_inv_l in Hitems as (its & items' & Hits & Hitems & ->).
    destruct fuel as [|fuel]; [simpl in Hfuel; lia|].
    subst tr d.
    simpl. unfold bind at 1. simpl. rewrite Hnext.
    unfold bind at 1. unfold next_page. rewrite Hpage. simpl.
    unfold bind at 1. simpl. unfold bind at 1. simpl.
    unfold bind at 1. rewrite _request_eq, Hroute. simpl.
    rewrite deref_insert, Hwire.
    unfold bind at 1. rewrite _cbw_parser_eq, Hits.
    unfold bind at 1. simpl.
    edestruct (IH fuel) as (s' & Hrun & Hlen); [| |exact Hitems| |].
    4: { rewrite Hrun. exists s'. split.
         - rewrite <- app_assoc. reflexivity.
         - rewrite Hlen, length_app. simpl. lia. }
    + reflexivity.
    + unfold sent. simpl. apply deref_insert.
    + simpl in Hfuel. lia.
Qed.

Lemma lookup_concat {A} (ls : list (list A)) k l i x :
  ls !! k = Some l -> l !! i = Some x ->
  concat ls !! (sum_list (length <$> take k ls) + i)%nat = Some x.
Proof.
  revert k. induction ls as [|l0 ls IH]; intros k Hk Hi; [discriminate|].
  destruct k as [|k].
  - simpl in *. injection Hk as ->. by apply lookup_app_l_Some.
  - specialize (IH k Hk Hi). simpl in *.
    rewrite lookup_app_r by lia. rewrite <- IH. f_equal. unfold fmap. lia.
Qed.

Lemma length_concat_sum {A} (ls : list (list A)) :
  length (concat ls) = sum_list (length <$> ls).
Proof. induction ls as [|l ls IH]; simpl; [|rewrite length_app, IH]; reflexivity. Qed.

(** C4. A collection fetch without an explicit page: the first request
    is answered with status 200 by [r1], the server serves [rest] when
    the next links are followed, and every page holds a JSON array.  Then
    [_get_pages] returns the concatenation of the arrays in the order the
    pages were served: its length is the sum of the page sizes, the
    [i]-th item of page [k] stands after all items of the pages before
    [k], at offset [i], and one request was sent per page. *)
Theorem pages_concatenated fuel verb route segs params s r1 rest items :
  all_strings route = Some segs ->
  effective_params (heap s) params !! "page" = None ->
  wire env (trace s)
       (the_request self verb (api_url self +:+ String.concat "/" segs)
                    (Some (effective_params (heap s) params))) = Responded r1 ->
  status_code r1 = 200 ->
  followed env self verb (api_url self +:+ String.concat "/" segs)
           (trace s ++ [the_request self verb
                          (api_url self +:+ String.concat "/" segs)
                          (Some (effective_params (heap s) params))])
           (effective_params (heap s) params) r1 rest ->
  Forall2 (holds_items env) (r1 :: rest) items ->
  (length rest <= fuel)%nat ->
  (_get_pages env self fuel verb route params s).1 = Ret (PList (concat items)) /\
  length (concat items) = sum_list (length <$> items) /\
  (forall k page i x,
      items !! k = Some page -> page !! i = Some x ->
      concat items !! (sum_list (length <$> take k items) + i)%nat = Some x) /\
  length (trace (_get_pages env self fuel verb route params s).2)
  = (length (trace s) + length (r1 :: rest))%nat.
Proof.
  intros Hroute Hpage Hwire Hcode Hf Hitems Hfuel.
  apply Forall2_cons_inv_l in Hitems as (its & items' & Hits & Hitems & ->).
  split; [|split; [apply length_concat_sum | split; [intros; by eapply lookup_concat|]]].
  all: assert (exists l s1,
           _get_pages env self fuel verb route params s
           = all_pages env self fuel verb route l s1 /\
           trace s1 = trace s /\
           deref (heap s1) l = effective_params (heap s) params) as (l & s1 & -> & Ht & Hd).
  1,3: destruct params as [l|];
      [ exists l, (after_defaults s l); rewrite _get_pages_some;
        rewrite bool_decide_eq_false_2 by (rewrite Hpage; apply is_Some_None);
        split; [reflexivity|]; split; [|apply deref_after_defaults];
        unfold after_defaults; destruct (bool_decide _); reflexivity
      | eexists _, _; rewrite _get_pages_none; split; [reflexivity|];
        split; [reflexivity|]; simpl; apply deref_insert ].
  all: unfold all_pages; unfold bind at 1; simpl;
       unfold bind at 1; rewrite _request_eq, Hroute; simpl;
       rewrite Hd, Ht, Hwire;
       unfold bind at 1; simpl; rewrite Hcode; simpl;
       unfold bind at 1; rewrite _cbw_parser_eq, Hits;
       unfold bind at 1; simpl;
       edestruct (follow_next_followed verb route segs l _ _ r1 rest Hroute Hf fuel
                    (sent s1 (the_request self verb
                                (api_url self +:+ String.concat "/" segs)
                                (Some (effective_params (heap s) params))))
                    its items') as (s' & Hrun & Hlen);
       [ simpl; by rewrite Ht | simpl; exact Hd | exact Hitems | exact Hfuel | ];
       rewrite Hrun; simpl.
  - reflexivity.
  - rewrite Hlen, length_app. simpl. lia.
Qed.

(** ** Delete methods without a test on the identifier *)

Ltac run_checked_delete :=
  unfold bind at 1; rewrite _request_eq; simpl;
  destruct (wire env _ _) as [r|e]; simpl;
  [ unfold bind, getattr, ret, logging_error, emit; simpl;
    destruct (negb _); simpl;
    [ reflexivity
    | rewrite _cbw_parser_eq; destruct (json_loads env _) as [?|[]]; reflexivity ]
  | destruct (connectivity_clause e); simpl;
    [reflexivity | destruct (decide _); reflexivity] ].

(** [delete_group], [delete_host], [delete_cve_announcement],
    [delete_security_issue] and [delete_node] send their request for any
    string, the empty one included. *)
Lemma unguarded_deletes_send (id : string) (body : option dict) (s : state) :
  trace (delete_group env self (PStr id) s).2
  = trace s ++ [the_request self "DELETE"
                  (api_url self +:+ String.concat "/" [ROUTE_GROUPS; id]) None] /\
  trace (delete_host env self (PStr id) s).2
  = trace s ++ [the_request self "DELETE"
                  (api_url self +:+ String.concat "/" [ROUTE_HOSTS; id]) None] /\
  trace (delete_cve_announcement env self (PStr id) s).2
  = trace s ++ [the_request self "DELETE"
                  (api_url self +:+ String.concat "/" [ROUTE_CVE_ANNOUNCEMENTS; id])
                  None] /\
  trace (delete_security_issue env self (PStr id) s).2
  = trace s ++ [the_request self "DELETE"
                  (api_url self +:+ String.concat "/" [ROUTE_SECURITY_ISSUES; id])
                  None] /\
  trace (delete_node env self (PStr id) body s).2
  = trace s ++ [the_request self "DELETE"
                  (api_url self +:+ String.concat "/" [ROUTE_NODES; id]) body].
Proof.
  unfold delete_group, delete_host, delete_cve_announcement, delete_security_issue,
    delete_node.
  repeat split; run_checked_delete.
Qed.

(** The delete methods that do test their argument send nothing and answer
    [False] when it is empty. *)
Lemma guarded_deletes_short_circuit (id : pyval) (s : state) :
  truthy id = false ->
  (delete_server env self id s).1 = Ret (RVal (PBool false)) /\
  (delete_agent env self id s).1 = Ret (RVal (PBool false)) /\
  (delete_remote_access env self id s).1 = Ret (RVal (PBool false)) /\
  (delete_compliance_rule env self id s).1 = Ret (RVal (PBool false)) /\
  trace (delete_server env self id s).2 = trace s /\
  trace (delete_agent env self id s).2 = trace s /\
  trace (delete_remote_access env self id s).2 = trace s /\
  trace (delete_compliance_rule env self id s).2 = trace s.
Proof.
  intros H.
  unfold delete_server, delete_agent, delete_remote_access, delete_compliance_rule.
  rewrite H. repeat split.
Qed.

(** * Further properties *)

(** ** Methods that look at the status code only *)

(** X1.  The methods that end in a status test or in [verif_response], and the
    bulk upload, never decode the body: they run the same whatever
    [json.loads] would make of it. *)
Theorem status_only_ignores_body fuel c loads s :
  status_only c = true ->
  run (Environment (wire env) loads) self fuel c s = run env self fuel c s.
Proof. destruct c; try discriminate; reflexivity. Qed.

(** X2.  For [ping] and the methods that end in [verif_response], an answered
    request gives exactly the verdict on the status code: [True] on 200 for
    [ping], [True] on 200 to 299 for the others, [False] otherwise. *)
Theorem status_verdict_returned fuel c r s b :
  status_verdict c (status_code r) = Some b ->
  (forall req, wire env (trace s) req = Responded r) ->
  made_no_request s (run env self fuel c s) \/
  ((run env self fuel c s).1 = Ret (RVal (PBool b)) /\
   made_one_request s (run env self fuel c s)).
Proof.
  intros Hv H.
  destruct c; simpl in Hv; try discriminate; injection Hv as <-; unfold_call;
    unfold made_no_request, made_one_request;
    repeat first
      [ progress open_monad | rewrite _request_eq | rewrite H
      | match goal with
        | |- context [if ?x =? 200 then _ else _] => destruct (x =? 200)
        | |- context [if (?a <=? ?x) && (?y <=? ?b) then _ else _] =>
            destruct ((a <=? x) && (y <=? b))
        end
      | split_on_tests ];
    first [ left; reflexivity | right; split; [reflexivity | eexists; reflexivity] ].
Qed.

(** ** The guard on the identifier *)

(** X3.  A method that opens with [if <id>:] and is given an empty identifier
    (for [update_remote_access], also an empty [info]) answers [False]
    without sending anything; all it does is log one error. *)
Theorem guard_short_circuits fuel c s :
  guard c = Some false ->
  exists message,
    run env self fuel c s =
    (Ret (RVal (PBool false)), logged s (LogRecord RootLogger LError message None)).
Proof.
  intros H.
  destruct c; simpl in H; try discriminate; injection H as H; unfold_call;
    rewrite H; eexists; reflexivity.
Qed.

(** ** Accepted responses *)

(** X4.  For the methods that test one status code and then parse: when the
    response carries that code and its body decodes, the decoded value is
    handed back after that single request, and nothing is logged. *)
Theorem accepted_response_is_parsed fuel c cs r v s :
  checked_and_parsed c = true ->
  expected c = Some cs ->
  in_code_set cs (status_code r) = true ->
  json_loads env (text r) = Decoded v ->
  (forall req, wire env (trace s) req = Responded r) ->
  made_no_request s (run env self fuel c s) \/
  ((run env self fuel c s).1 = Ret (RVal v) /\
   made_one_request s (run env self fuel c s) /\
   logs (run env self fuel c s).2 = logs s).
Proof.
  intros Hshape Hexp Hcode Hv H.
  destruct c; simpl in Hshape; try discriminate;
    simpl in Hexp; injection Hexp as <-; simpl in Hcode; unfold_call;
    unfold made_no_request, made_one_request;
    repeat first [ progress open_monad | rewrite _request_eq | rewrite H
                 | rewrite Hcode | rewrite _cbw_parser_eq, Hv | split_on_tests ];
    first [ left; reflexivity
          | right; split; [reflexivity|]; split; [eexists|]; reflexivity ].
Qed.

(** ** Transport exceptions that [_request] does not name *)

Lemma _get_pages_unhandled fuel verb route params e s :
  connectivity_clause e = false ->
  e <> MissingSchema ->
  (forall req, wire env (trace s) req = Failed e) ->
  made_no_request s (_get_pages env self fuel verb route params s) \/
  ((_get_pages env self fuel verb route params s).1 = Raise e /\
   made_one_request s (_get_pages env self fuel verb route params s) /\
   wrote s (_get_pages env self fuel verb route params s) []).
Proof.
  intros He Hm H. unfold made_no_request, made_one_request, wrote, _get_pages.
  repeat first [ progress open_monad | rewrite _request_eq | rewrite H
               | rewrite He | rewrite (decide_False (P := e = MissingSchema)) by exact Hm
               | split_on_tests ].
  all: first [ left; reflexivity
             | right; split; [reflexivity|]; split; [eexists; reflexivity|];
               symmetry; apply app_nil_r ].
Qed.

(** X5.  An exception of the transport that is neither in the first [except]
    clause nor [MissingSchema] (a read timeout, or the [ConnectionError] of
    [requests], which is not the builtin one) goes through every method to
    the caller once the request is sent; [_request] logs nothing, so the
    only records written are the debug lines some methods log beforehand. *)
Theorem unhandled_transport_error_propagates fuel c e s :
  connectivity_clause e = false ->
  e <> MissingSchema ->
  (forall req, wire env (trace s) req = Failed e) ->
  made_no_request s (run env self fuel c s) \/
  ((run env self fuel c s).1 = Raise e /\
   made_one_request s (run env self fuel c s) /\
   exists new, wrote s (run env self fuel c s) new /\
               Forall (fun r => log_level r = LDebug) new).
Proof.
  intros He Hm H.
  destruct c; unfold_call;
    lazymatch goal with
    | |- context [_get_pages _ _ _ ?v ?r ?p] =>
        name_pages (_get_pages_unhandled fuel v r p e s He Hm H);
        unfold made_no_request, made_one_request, wrote in *; simpl in *;
        (destruct E as [E|[E1 [E2 E3]]];
         [ left; exact E
         | first [ discriminate
                 | right; split; [injection E1 as ->; reflexivity|];
                   split; [exact E2|]; exists []; split; [exact E3 | constructor] ] ])
    | _ =>
        unfold made_no_request, made_one_request, wrote;
        repeat first [ progress open_monad | rewrite _request_eq | rewrite H
                     | rewrite He
                     | rewrite (decide_False (P := e = MissingSchema)) by exact Hm
                     | split_on_tests ];
        first [ left; reflexivity
              | right; split; [reflexivity|]; split; [eexists; reflexivity|];
                first [ exists []; split; [symmetry; apply app_nil_r | constructor]
                      | eexists; split; [reflexivity | repeat constructor] ] ]
    end.
Qed.

(** ** Identifiers that are not strings *)

(** X6.  Route segments are joined with [str.join]: a call given an identifier
    that is not a string ([None], a number) sends nothing.  It raises
    [TypeError], unless its guard already turned the identifier down, in
    which case it answers [False]. *)
Theorem non_string_identifier_sends_nothing fuel c s :
  all_strings (identifiers c) = None ->
  made_no_request s (run env self fuel c s) /\
  ((run env self fuel c s).1 = Raise TypeError \/
   (guard c = Some false /\ (run env self fuel c s).1 = Ret (RVal (PBool false)))).
Proof.
  intros H. unfold made_no_request.
  destruct c; simpl in H; try discriminate; unfold_call;
    repeat match goal with
           | id : pyval |- _ => destruct id; simpl in H; try discriminate
           end;
    repeat first [ progress open_monad | rewrite _request_eq | split_on_tests
                 | match goal with
                   | |- context [if ?b then _ else _] => destruct b eqn:?
                   end ];
    (split; [reflexivity|]);
    first [ left; reflexivity | right; split; reflexivity
          | right; split; [simpl|]; congruence ].
Qed.

(** ** One request per call *)

Ltac any_answer :=
  repeat first
    [ progress open_monad
    | rewrite _request_eq
    | rewrite _cbw_parser_eq
    | match goal with
      | |- context [match wire env ?t ?q with _ => _ end] =>
          destruct (wire env t q) as [?r|?e]
      | |- context [if connectivity_clause ?e then _ else _] =>
          destruct (connectivity_clause e)
      | |- context [if decide ?P then _ else _] => destruct (decide P)
      | |- context [if negb (?x =? ?n) then _ else _] => destruct (x =? n)
      | |- context [if ?x =? ?n then _ else _] => destruct (x =? n)
      | |- context [if (?a <=? ?x) && (?y <=? ?b) then _ else _] =>
          destruct ((a <=? x) && (y <=? b))
      | |- context [match json_loads env ?t with _ => _ end] =>
          destruct (json_loads env t) as [?v|[]]
      end
    | split_on_tests ].

(** X7.  A method that does not paginate sends at most one request, whatever
    the transport and the server do. *)
Theorem at_most_one_request fuel c s :
  collection_params c = None ->
  made_no_request s (run env self fuel c s) \/
  made_one_request s (run env self fuel c s).
Proof.
  intros Hc. unfold made_no_request, made_one_request.
  destruct c; simpl in Hc; try discriminate; unfold_call; any_answer;
    first [ left; reflexivity | right; eexists; reflexivity ].
Qed.

(** ** What every call leaves alone *)

Section KeepsRun.
Context (R : state -> state -> Prop) `{!Reflexive R} `{!Transitive R}.
Hypothesis R_log : forall s r, R s (logged s r).
Hypothesis R_request :
  forall verb payloads body, keeps R (_request env self verb payloads body).
Hypothesis R_heap : forall s h, R s (State h (trace s) (logs s)).

Ltac keeps_steps :=
  repeat first
    [ apply (keeps_ret R) | apply (keeps_raise R)
    | apply (keeps_getattr R) | apply R_request
    | apply (keeps_cbw_parser R R_log)
    | apply (keeps_emit R R_log)
    | apply (keeps_bind R); [|intros ?]
    | match goal with
      | |- keeps _ (if ?b then _ else _) => destruct b
      | |- keeps _ (match ?x with _ => _ end) => destruct x
      end
    | progress unfold logging_debug, logging_info, logging_error, logger_error,
        get_method, subscript, getitem, verif_response ].

Lemma keeps_simple_call fuel c :
  collection_params c = None -> keeps R (run env self fuel c).
Proof.
  intros Hc. destruct c; simpl in Hc; try discriminate; unfold_call; keeps_steps.
Qed.

Lemma keeps_get_pages fuel verb route params :
  keeps R (_get_pages env self fuel verb route params).
Proof.
  assert (Hset : forall l k v, keeps R (setitem l k v)) by (intros l k v s; apply R_heap).
  assert (Hload : forall l, keeps R (load l)) by (intros l s; reflexivity).
  assert (Hin : forall l k, keeps R (contains l k)) by (intros l k s; reflexivity).
  assert (Hnew : keeps R new_dict) by (intros s; apply R_heap).
  assert (Hloop : forall l response acc,
             keeps R (follow_next env self fuel verb route l response acc)).
  { induction fuel as [|n IH]; intros l response acc; simpl.
    - apply (keeps_bind R); [apply (keeps_getattr R) | intros lks].
      destruct (lks !! "next"); [apply (keeps_out_of_fuel R) | apply (keeps_ret R)].
    - apply (keeps_bind R); [apply (keeps_getattr R) | intros lks].
      destruct (lks !! "next"); [|apply (keeps_ret R)].
      apply (keeps_bind R); [apply (keeps_next_page R) | intros page].
      apply (keeps_bind R); [apply Hset | intros _].
      apply (keeps_bind R); [apply Hload | intros body].
      apply (keeps_bind R); [apply R_request | intros response'].
      apply (keeps_bind R); [apply (keeps_cbw_parser R R_log) | intros items].
      apply (keeps_bind R); [apply (keeps_extend R) | intros acc'].
      apply IH. }
  unfold _get_pages.
  apply (keeps_bind R).
  { destruct params; [apply (keeps_ret R)|].
    apply (keeps_bind R); [apply Hnew | intros p].
    apply (keeps_bind R); [apply Hset | intros _; apply (keeps_ret R)]. }
  intros l.
  apply (keeps_bind R); [apply Hin | intros has_per_page].
  apply (keeps_bind R); [destruct (negb _); [apply Hset | apply (keeps_ret R)] | intros _].
  apply (keeps_bind R); [apply Hin | intros has_page].
  destruct has_page.
  - apply (keeps_bind R); [apply Hload | intros body]. keeps_steps.
  - apply (keeps_bind R); [apply Hload | intros body].
    apply (keeps_bind R); [apply R_request | intros response].
    apply (keeps_bind R); [apply (keeps_getattr R) | intros code].
    destruct (negb _); [keeps_steps|].
    apply (keeps_bind R); [apply (keeps_cbw_parser R R_log) | intros items].
    apply (keeps_bind R); [apply (keeps_extend R) | intros acc].
    apply Hloop.
Qed.

Lemma keeps_any_call fuel c : keeps R (run env self fuel c).
Proof.
  destruct (collection_params c) eqn:Hc; [|by apply keeps_simple_call].
  destruct c; simpl in Hc; try discriminate; unfold_call;
    (apply (keeps_bind R); [apply keeps_get_pages | intros; apply (keeps_ret R)]).
Qed.

End KeepsRun.

Local Instance sent_only_refl P : Reflexive (sent_only P).
Proof. intros s. exists []. split; [symmetry; apply app_nil_r | constructor]. Qed.

Local Instance sent_only_trans P : Transitive (sent_only P).
Proof.
  intros s1 s2 s3 (n1 & H1 & F1) (n2 & H2 & F2). exists (n1 ++ n2). split.
  - rewrite H2, H1, app_assoc. reflexivity.
  - apply Forall_app. split; assumption.
Qed.

Lemma sent_only_same_trace P s s' : trace s' = trace s -> sent_only P s s'.
Proof. intros H. exists []. split; [rewrite H; symmetry; apply app_nil_r | constructor]. Qed.

Lemma _request_from_client verb payloads body :
  keeps (sent_only (from_client self)) (_request env self verb payloads body).
Proof.
  assert (Hone : forall (s : state) route,
            sent_only (from_client self) s
              (sent s (the_request self verb (api_url self +:+ route) body))).
  { intros s route. exists [the_request self verb (api_url self +:+ route) body].
    split; [reflexivity|]. repeat constructor. eexists. reflexivity. }
  intros s. rewrite _request_eq.
  destruct (all_strings payloads) as [segs|]; simpl; [|reflexivity].
  destruct (wire env _ _) as [r|e]; simpl; [apply Hone|].
  destruct (connectivity_clause e); simpl; [apply Hone|].
  destruct (decide _); apply Hone.
Qed.

(** X8.  Every request a call sends, the pages of a collection fetch included,
    carries the key pair and the [verify] flag of the client, and goes to
    a route under its base URL. *)
Theorem requests_come_from_client fuel c s :
  sent_only (from_client self) s (run env self fuel c s).2.
Proof.
  apply (keeps_any_call (sent_only (from_client self))).
  - intros s0 r. by apply sent_only_same_trace.
  - apply _request_from_client.
  - intros s0 h. by apply sent_only_same_trace.
Qed.

Local Instance others_kept_refl skip : Reflexive (others_kept skip).
Proof. intros s l d H _. exact H. Qed.

Local Instance others_kept_trans skip : Transitive (others_kept skip).
Proof. intros s1 s2 s3 H1 H2 l d H Hs. apply H2; auto. Qed.

Lemma same_heap_others_kept skip s s' : heap s' = heap s -> others_kept skip s s'.
Proof. intros H l d Hl _. rewrite H. exact Hl. Qed.

Lemma _request_others_kept skip verb payloads body :
  keeps (others_kept skip) (_request env self verb payloads body).
Proof.
  intros s. apply same_heap_others_kept.
  apply (keeps_request same_heap); reflexivity.
Qed.

Lemma _get_pages_others_kept fuel verb route params :
  keeps (others_kept params) (_get_pages env self fuel verb route params).
Proof.
  intros s. destruct params as [l|].
  - rewrite _get_pages_some.
    assert (H1 : others_kept (Some l) s (after_defaults s l)).
    { unfold after_defaults. destruct (bool_decide _); [reflexivity|].
      intros l' d Hl' Hne. simpl. rewrite lookup_insert_ne; [exact Hl'|congruence]. }
    etransitivity; [exact H1|].
    destruct (bool_decide _).
    + apply same_heap_others_kept, explicit_page_heap.
    + apply (keeps_all_pages (others_kept (Some l))).
      * intros s0 r. by apply same_heap_others_kept.
      * intros s0 req. by apply same_heap_others_kept.
      * intros p s0 l' d Hl' Hne. simpl.
        rewrite lookup_insert_ne; [exact Hl'|congruence].
  - rewrite _get_pages_none.
    intros l d Hl _.
    assert (Hne : fresh (dom (heap s)) <> l).
    { intros <-. apply (is_fresh (dom (heap s))). apply elem_of_dom. eauto. }
    apply (keeps_all_pages (others_kept (Some (fresh (dom (heap s)))))).
    + intros s0 r. by apply same_heap_others_kept.
    + intros s0 req. by apply same_heap_others_kept.
    + intros p s0 l' d' Hl' Hne'. simpl.
      rewrite lookup_insert_ne; [exact Hl'|congruence].
    + simpl. rewrite lookup_insert_ne; [exact Hl|exact Hne].
    + congruence.
Qed.

(** X9.  No call touches a dictionary of the store other than the [params] it
    was handed: the methods that do not paginate leave the store as it is,
    and a collection fetch without [params] works on a dictionary of its
    own. *)
Theorem store_is_kept fuel c s :
  others_kept (default None (collection_params c)) s (run env self fuel c s).2.
Proof.
  destruct (collection_params c) as [p|] eqn:Hc; simpl.
  - destruct c; simpl in Hc; try discriminate; injection Hc as <-; unfold_call;
      (apply (keeps_bind (others_kept params));
       [apply _get_pages_others_kept | intros; apply (keeps_ret (others_kept params))]).
  - apply (keeps_simple_call (others_kept None)); [|apply _request_others_kept|exact Hc].
    intros s0 r. by apply same_heap_others_kept.
Qed.

(** ** The bulk upload *)

(** X10.  [upload_importer_results] accepts status 204 only, and then hands back
    the response object itself; any other status, 200 included, gives
    [None] with the body logged.  The body is never decoded. *)
Theorem upload_returns_the_response content r s :
  wire env (trace s)
       (the_request self "POST" (api_url self +:+ String.concat "/" [ROUTE_IMPORTER])
                    content) = Responded r ->
  upload_importer_results env self content s =
  (if status_code r =? 204 then
     (Ret (RResponse r),
      sent s (the_request self "POST"
                (api_url self +:+ String.concat "/" [ROUTE_IMPORTER]) content))
   else
     (Ret (RVal PNone),
      logged (sent s (the_request self "POST"
                        (api_url self +:+ String.concat "/" [ROUTE_IMPORTER]) content))
             (LogRecord RootLogger LError "Error::{}" (Some (AText (text r)))))).
Proof.
  intros H. unfold upload_importer_results. unfold bind at 1.
  rewrite _request_eq. simpl. rewrite H.
  unfold bind, getattr, ret, logging_error, emit. simpl.
  destruct (status_code r =? 204); reflexivity.
Qed.

(** ** [update_remote_access] *)

(** X11.  [update_remote_access] makes no status test: with an identifier and a
    non-empty [info], whatever the server answers is decoded and handed
    back, an error response included. *)
Theorem update_remote_access_parses_any_status id info r v s :
  truthy (PStr id) = true ->
  truthy_dict info = true ->
  wire env (trace s)
       (the_request self "PATCH"
          (api_url self +:+ String.concat "/" [ROUTE_REMOTE_ACCESSES; id]) info)
    = Responded r ->
  json_loads env (text r) = Decoded v ->
  (update_remote_access env self (PStr id) info s).1 = Ret (RVal v) /\
  made_one_request s (update_remote_access env self (PStr id) info s).
Proof.
  intros Hid Hinfo H Hv. unfold update_remote_access, made_one_request.
  rewrite Hid, Hinfo. simpl.
  repeat first [ progress open_monad | rewrite _request_eq | rewrite H
               | rewrite _cbw_parser_eq, Hv ].
  split; [reflexivity | eexists; reflexivity].
Qed.

(** ** [create_remote_access] *)

(** X12.  Without a stored credential ([credential_id] absent or empty),
    [create_remote_access] posts a body of exactly eight fields built from
    [info]: the five mandatory ones, [password] taken from [auth_password]
    when that is set and from [password] otherwise, [key] likewise from
    [priv_password] or [key], and [server_groups] defaulting to the empty
    string.  Nothing else of [info] is sent. *)
Theorem create_remote_access_builds_body d type address port login node_id s :
  truthy (dict_get d "credential_id" PNone) = false ->
  d !! "type" = Some type ->
  d !! "address" = Some address ->
  d !! "port" = Some port ->
  d !! "login" = Some login ->
  d !! "node_id" = Some node_id ->
  trace (create_remote_access env self (Some d) s).2
  = trace s ++ [the_request self "POST"
                  (api_url self +:+ String.concat "/" [ROUTE_REMOTE_ACCESSES])
                  (Some (remote_access_body d type address port login node_id))].
Proof.
  intros Hc Ht Ha Hp Hl Hn.
  assert (Hd : truthy_dict (Some d) = true).
  { simpl. rewrite bool_decide_eq_false_2; [reflexivity|].
    intros ->. rewrite lookup_empty in Ht. discriminate. }
  unfold create_remote_access, remote_access_body. rewrite Hd.
  repeat first [ progress open_monad | rewrite Hc | rewrite Ht | rewrite Ha
               | rewrite Hp | rewrite Hl | rewrite Hn | rewrite _request_eq ].
  any_answer; reflexivity.
Qed.

(** X13.  Without a stored credential, a missing mandatory field stops
    [create_remote_access] before anything is sent: the call raises
    [KeyError] and leaves no trace. *)
Theorem create_remote_access_missing_field d k s :
  d <> ∅ ->
  truthy (dict_get d "credential_id" PNone) = false ->
  k ∈ ["type"; "address"; "port"; "login"; "node_id"] ->
  d !! k = None ->
  create_remote_access env self (Some d) s = (Raise KeyError, s).
Proof.
  intros Hd Hc Hk Hnone.
  unfold create_remote_access. simpl. rewrite bool_decide_eq_false_2 by exact Hd.
  simpl. unfold bind at 1. unfold bind at 1. unfold bind at 1. simpl. rewrite Hc.
  unfold subscript, getitem.
  repeat (apply elem_of_cons in Hk as [->|Hk];
          [ rewrite ?Hnone;
            repeat first [ progress (unfold bind, ret, raise; simpl)
                         | match goal with
                           | |- context [match d !! ?x with _ => _ end] =>
                               destruct (d !! x)
                           end ];
            try reflexivity; try discriminate | ]).
  by apply elem_of_nil in Hk.
Qed.

(** X15.  With a stored credential, [info] is posted as it is, and its other
    fields are not looked at before the request.  If the server then
    accepts the request (status 200 to 299) and [info] has no [address],
    the method raises [KeyError] while composing its success message: the
    remote access exists on the server, but the caller gets an exception. *)
Theorem create_remote_access_raises_after_creation d r s :
  truthy (dict_get d "credential_id" PNone) = true ->
  d !! "address" = None ->
  wire env (trace s)
       (the_request self "POST"
          (api_url self +:+ String.concat "/" [ROUTE_REMOTE_ACCESSES]) (Some d))
    = Responded r ->
  (200 <=? status_code r) && (status_code r <=? 299) = true ->
  (create_remote_access env self (Some d) s).1 = Raise KeyError /\
  trace (create_remote_access env self (Some d) s).2
  = trace s ++ [the_request self "POST"
                  (api_url self +:+ String.concat "/" [ROUTE_REMOTE_ACCESSES])
                  (Some d)].
Proof.
  intros Hc Ha H Hcode.
  assert (Hd : truthy_dict (Some d) = true).
  { simpl. rewrite bool_decide_eq_false_2; [reflexivity|].
    intros ->. simpl in Hc. discriminate. }
  unfold create_remote_access. rewrite Hd.
  repeat first [ progress open_monad | rewrite Hc | rewrite Ha | rewrite H
               | rewrite Hcode | rewrite _request_eq ].
  split; reflexivity.
Qed.

(** X14.  With a stored credential ([credential_id] set), [create_remote_access]
    posts [info] as it is, whatever else it holds or lacks. *)
Theorem create_remote_access_posts_info d s :
  truthy (dict_get d "credential_id" PNone) = true ->
  trace (create_remote_access env self (Some d) s).2
  = trace s ++ [the_request self "POST"
                  (api_url self +:+ String.concat "/" [ROUTE_REMOTE_ACCESSES])
                  (Some d)].
Proof.
  intros Hc.
  assert (Hd : truthy_dict (Some d) = true).
  { simpl. rewrite bool_decide_eq_false_2; [reflexivity|].
    intros ->. simpl in Hc. discriminate. }
  unfold create_remote_access. rewrite Hd.
  repeat first [ progress open_monad | rewrite Hc | rewrite _request_eq ].
  any_answer; reflexivity.
Qed.

(** ** More on pagination *)

(** Without a page in [params], [_get_pages] is its second branch, run on
    the dictionary with the page size defaulted. *)
Lemma _get_pages_without_page fuel verb route params s :
  effective_params (heap s) params !! "page" = None ->
  exists l s1,
    _get_pages env self fuel verb route params s
    = all_pages env self fuel verb route l s1 /\
    trace s1 = trace s /\
    deref (heap s1) l = effective_params (heap s) params.
Proof.
  intros Hpage. destruct params as [l|].
  - exists l, (after_defaults s l). rewrite _get_pages_some.
    rewrite bool_decide_eq_false_2 by (rewrite Hpage; apply is_Some_None).
    split; [reflexivity|]. split; [|apply deref_after_defaults].
    unfold after_defaults. destruct (bool_decide _); reflexivity.
  - eexists _, _. rewrite _get_pages_none. split; [reflexivity|].
    split; [reflexivity|]. simpl. apply deref_insert.
Qed.

(** X16.  The first page alone: when the first response is accepted and carries
    no next link, the fetch hands back what iterating over the decoded body
    yields.  An array gives its items; an object, which [_cbw_parser] turns
    into a named tuple, gives its field values; a number, a boolean or
    [null] cannot be iterated and the fetch raises [TypeError]. *)
Theorem single_page_result fuel verb route segs params r v s :
  all_strings route = Some segs ->
  effective_params (heap s) params !! "page" = None ->
  wire env (trace s)
       (the_request self verb (api_url self +:+ String.concat "/" segs)
                    (Some (effective_params (heap s) params))) = Responded r ->
  status_code r = 200 ->
  json_loads env (text r) = Decoded v ->
  links r !! "next" = None ->
  (_get_pages env self fuel verb route params s).1
  = match py_iter v with
    | Some items => Ret (PList items)
    | None => Raise TypeError
    end.
Proof.
  intros Hroute Hpage Hwire Hcode Hv Hnext.
  destruct (_get_pages_without_page fuel verb route params s Hpage)
    as (l & s1 & -> & Ht & Hd).
  unfold all_pages. unfold bind at 1. simpl.
  unfold bind at 1. rewrite _request_eq, Hroute. simpl. rewrite Hd, Ht, Hwire.
  unfold bind at 1. simpl. rewrite Hcode. simpl.
  unfold bind at 1. rewrite _cbw_parser_eq, Hv.
  unfold bind at 1. unfold extend. destruct (py_iter v) as [items|]; [|reflexivity].
  simpl. destruct fuel; simpl; unfold bind; simpl; rewrite Hnext; reflexivity.
Qed.

(** X17.  A next link whose query has no [page] (or a blank one) ends the fetch
    with [KeyError]: the pages read so far are lost and no further request
    is sent. *)
Theorem next_link_without_page fuel verb route segs params r v items lk s :
  all_strings route = Some segs ->
  effective_params (heap s) params !! "page" = None ->
  wire env (trace s)
       (the_request self verb (api_url self +:+ String.concat "/" segs)
                    (Some (effective_params (heap s) params))) = Responded r ->
  status_code r = 200 ->
  json_loads env (text r) = Decoded v ->
  py_iter v = Some items ->
  links r !! "next" = Some lk ->
  parse_qs (link_query lk) !! "page" = None ->
  (0 < fuel)%nat ->
  (_get_pages env self fuel verb route params s).1 = Raise KeyError /\
  trace (_get_pages env self fuel verb route params s).2
  = trace s ++ [the_request self verb (api_url self +:+ String.concat "/" segs)
                  (Some (effective_params (heap s) params))].
Proof.
  intros Hroute Hpage Hwire Hcode Hv Hiter Hnext Hqs Hfuel.
  destruct (_get_pages_without_page fuel verb route params s Hpage)
    as (l & s1 & -> & Ht & Hd).
  destruct fuel as [|fuel]; [lia|].
  enough (Heq : all_pages env self (S fuel) verb route l s1
                = (Raise KeyError,
                   sent s1 (the_request self verb
                              (api_url self +:+ String.concat "/" segs)
                              (Some (effective_params (heap s) params)))))
    by (rewrite Heq; simpl; rewrite Ht; split; reflexivity).
  unfold all_pages. unfold bind at 1. simpl.
  unfold bind at 1. rewrite _request_eq, Hroute. simpl. rewrite Hd, Ht, Hwire.
  unfold bind at 1. simpl. rewrite Hcode. simpl.
  unfold bind at 1. rewrite _cbw_parser_eq, Hv.
  unfold bind at 1. unfold extend. rewrite Hiter.
  simpl. unfold bind at 1. simpl. rewrite Hnext.
  unfold bind at 1. unfold next_page. rewrite Hqs. reflexivity.
Qed.

(** *** The parameters every page request carries *)


Local Instance filters_kept_refl d0 l : Reflexive (filters_kept d0 l).
Proof. intros s H. split; [exact H | reflexivity]. Qed.

Local Instance filters_kept_trans d0 l : Transitive (filters_kept d0 l).
Proof.
  intros s1 s2 s3 H12 H23 H1.
  destruct (H12 H1) as [H2 S12]. destruct (H23 H2) as [H3 S23].
  split; [exact H3 | etransitivity; eassumption].
Qed.

Lemma filters_kept_same d0 l s s' :
  heap s' = heap s -> trace s' = trace s -> filters_kept d0 l s s'.
Proof.
  intros Hh Ht H. rewrite Hh. split; [exact H | by apply sent_only_same_trace].
Qed.

Lemma filters_kept_sent d0 l verb url s s' :
  heap s' = heap s ->
  trace s' = trace s ++ [the_request self verb url (Some (deref (heap s) l))] ->
  filters_kept d0 l s s'.
Proof.
  intros Hh Ht H. rewrite Hh. split; [exact H|].
  eexists. split; [exact Ht|]. repeat constructor. eexists. split; [reflexivity | exact H].
Qed.

Lemma setitem_page_filters d0 l p : keeps (filters_kept d0 l) (setitem l "page" p).
Proof.
  intros s H. unfold setitem. simpl. rewrite deref_insert. split.
  - intros k Hk. rewrite lookup_insert_ne by congruence. by apply H.
  - by apply sent_only_same_trace.
Qed.

(** [load] and [_request] together: the body sent is the dictionary. *)
Lemma load_request_filters d0 l verb route {A} (K : option response -> M A) :
  (forall response, keeps (filters_kept d0 l) (K response)) ->
  keeps (filters_kept d0 l)
        (do body <- load l;
         do response <- _request env self verb route (Some body);
         K response).
Proof.
  intros HK s.
  change ((do body <- load l;
           do response <- _request env self verb route (Some body);
           K response) s)
    with (bind (_request env self verb route (Some (deref (heap s) l))) K s).
  unfold bind. rewrite _request_eq.
  destruct (all_strings route) as [segs|]; simpl; [|reflexivity].
  destruct (wire env _ _) as [r|e]; simpl.
  - etransitivity; [|apply HK]. by eapply filters_kept_sent.
  - destruct (connectivity_clause e); simpl.
    + etransitivity; [|apply HK]. by eapply filters_kept_sent.
    + destruct (decide _); simpl; by eapply filters_kept_sent.
Qed.

Lemma follow_next_filters d0 l fuel verb route :
  forall response acc,
    keeps (filters_kept d0 l) (follow_next env self fuel verb route l response acc).
Proof.
  assert (Hlog : forall s r, filters_kept d0 l s (logged s r))
    by (intros; by apply filters_kept_same).
  induction fuel as [|fuel IH]; intros response acc; simpl.
  - apply (keeps_bind (filters_kept d0 l));
      [apply (keeps_getattr (filters_kept d0 l)) | intros lks].
    destruct (lks !! "next");
      [apply (keeps_out_of_fuel (filters_kept d0 l)) | apply (keeps_ret (filters_kept d0 l))].
  - apply (keeps_bind (filters_kept d0 l));
      [apply (keeps_getattr (filters_kept d0 l)) | intros lks].
    destruct (lks !! "next"); [|apply (keeps_ret (filters_kept d0 l))].
    apply (keeps_bind (filters_kept d0 l));
      [apply (keeps_next_page (filters_kept d0 l)) | intros page].
    apply (keeps_bind (filters_kept d0 l)); [apply setitem_page_filters | intros _].
    apply load_request_filters. intros response'.
    apply (keeps_bind (filters_kept d0 l));
      [apply (keeps_cbw_parser (filters_kept d0 l) Hlog) | intros items].
    apply (keeps_bind (filters_kept d0 l));
      [apply (keeps_extend (filters_kept d0 l)) | intros acc'].
    apply IH.
Qed.

Lemma pages_branches_filters d0 l fuel verb route :
  keeps (filters_kept d0 l) (explicit_page env self verb route l) /\
  keeps (filters_kept d0 l) (all_pages env self fuel verb route l).
Proof.
  assert (Hlog : forall s r, filters_kept d0 l s (logged s r))
    by (intros; by apply filters_kept_same).
  split.
  - unfold explicit_page. apply load_request_filters. intros response.
    apply (keeps_bind (filters_kept d0 l));
      [apply (keeps_getattr (filters_kept d0 l)) | intros code].
    destruct (negb _); [|apply (keeps_cbw_parser (filters_kept d0 l) Hlog)].
    apply (keeps_bind (filters_kept d0 l));
      [apply (keeps_getattr (filters_kept d0 l)) | intros t].
    apply (keeps_bind (filters_kept d0 l));
      [apply (keeps_emit (filters_kept d0 l) Hlog)
      | intros; apply (keeps_ret (filters_kept d0 l))].
  - unfold all_pages. apply load_request_filters. intros response.
    apply (keeps_bind (filters_kept d0 l));
      [apply (keeps_getattr (filters_kept d0 l)) | intros code].
    destruct (negb _).
    + apply (keeps_bind (filters_kept d0 l));
        [apply (keeps_getattr (filters_kept d0 l)) | intros t].
      apply (keeps_bind (filters_kept d0 l));
        [apply (keeps_emit (filters_kept d0 l) Hlog)
        | intros; apply (keeps_ret (filters_kept d0 l))].
    + apply (keeps_bind (filters_kept d0 l));
        [apply (keeps_cbw_parser (filters_kept d0 l) Hlog) | intros items].
      apply (keeps_bind (filters_kept d0 l));
        [apply (keeps_extend (filters_kept d0 l)) | intros acc].
      apply follow_next_filters.
Qed.

(** X18.  Every request of a collection fetch, the first page and each page
    reached through a next link, carries the caller's parameters and the
    page size (100 unless the caller set one); from one request to the
    next only [page] changes. *)
Theorem pages_carry_filters fuel verb route params s :
  sent_only (carries_filters (effective_params (heap s) params)) s
            (_get_pages env self fuel verb route params s).2.
Proof.
  assert (Hgo : forall l s1 (m : M pyval),
             keeps (filters_kept (effective_params (heap s) params) l) m ->
             trace s1 = trace s ->
             deref (heap s1) l = effective_params (heap s) params ->
             sent_only (carries_filters (effective_params (heap s) params)) s (m s1).2).
  { intros l s1 m Hm Ht Hd.
    destruct (Hm s1) as [_ (new & Hnew & Hall)]; [rewrite Hd; intros k _; reflexivity|].
    exists new. split; [rewrite Hnew, Ht; reflexivity | exact Hall]. }
  destruct params as [l|].
  - rewrite _get_pages_some.
    assert (Ht : trace (after_defaults s l) = trace s)
      by (unfold after_defaults; destruct (bool_decide _); reflexivity).
    destruct (bool_decide _).
    + eapply Hgo; [apply (proj1 (pages_branches_filters _ _ fuel _ _)) | exact Ht
                  | apply deref_after_defaults].
    + eapply Hgo; [apply (proj2 (pages_branches_filters _ _ fuel _ _)) | exact Ht
                  | apply deref_after_defaults].
  - rewrite _get_pages_none.
    eapply Hgo; [apply (proj2 (pages_branches_filters _ _ fuel _ _)) | reflexivity
                | simpl; apply deref_insert].
Qed.

End Properties.

(** * Worked examples *)

(** C1.  Two pages; the second request is answered with status 500.  The
    loop of [_get_pages] never reads the status code: the fetch does not
    return [None] but the items of the first page followed by whatever the
    failed response decodes to, and nothing is logged. *)
Theorem later_page_status_unchecked :
  (servers (scripted [page_one; page_two_failed]) demo_client 5 None empty_state).1
  = Ret (RVal (PList [PInt 1; PInt 2; PInt 3])) /\
  length (trace (servers (scripted [page_one; page_two_failed]) demo_client 5 None
                         empty_state).2) = 2%nat /\
  logs (servers (scripted [page_one; page_two_failed]) demo_client 5 None
                empty_state).2 = [].
Proof. vm_compute. repeat split. Qed.

(** C2.  Status 200 with a body that is not JSON: [json.loads] raises
    [JSONDecodeError], which the [except TypeError] clause of [_cbw_parser]
    does not cover; the exception leaves [server]. *)
Theorem malformed_body_raises :
  (server (always ok_not_json) demo_client (PStr "42") empty_state).1
  = Raise JSONDecodeError /\
  logs (server (always ok_not_json) demo_client (PStr "42") empty_state).2 = [].
Proof. vm_compute. split; reflexivity. Qed.

(** C3.  The proxy refuses the connection: [_request] logs the failure and
    returns [None], and [server] then reads [status_code] off [None]. *)
Theorem proxy_error_escapes :
  (server (failing ProxyError) demo_client (PStr "42") empty_state).1
  = Raise AttributeError /\
  logs (server (failing ProxyError) demo_client (PStr "42") empty_state).2
  = [connectivity_record "https://cbw.example/api/v3/servers/42"].
Proof. vm_compute. split; reflexivity. Qed.

(** C7.  [delete_group] has no test on its argument.  With the empty
    string it sends a DELETE request for the collection route; with [None]
    it raises [TypeError] while building the route. *)
Theorem delete_group_without_id :
  map req_verb (trace (delete_group (always not_found) demo_client (PStr "")
                                    empty_state).2) = ["DELETE"] /\
  map req_route (trace (delete_group (always not_found) demo_client (PStr "")
                                     empty_state).2)
  = ["https://cbw.example/api/v3/groups/"] /\
  (delete_group (always not_found) demo_client PNone empty_state).1 = Raise TypeError.
Proof. vm_compute. repeat split. Qed.

(** C6, as stated, fails at [ping]: on a 500 it answers [False] after its
    single request, and the only record it writes is [FAILED], which does
    not carry the body; the call is not [rejected] with the body kept. *)
Lemma ping_drops_body :
  (ping (always server_error) demo_client empty_state).1 = Ret (RVal (PBool false)) /\
  length (trace (ping (always server_error) demo_client empty_state).2) = 1%nat /\
  logs (ping (always server_error) demo_client empty_state).2
  = [LogRecord RootLogger LError "FAILED" None] /\
  ~ rejected True server_error empty_state
      (run (always server_error) demo_client 0 Call_ping empty_state).
Proof.
  split; [reflexivity|]. split; [reflexivity|]. split; [reflexivity|].
  intros (v & new & _ & _ & _ & Hw & Hbody).
  specialize (Hbody I).
  assert (new = [LogRecord RootLogger LError "FAILED" None]) as ->
    by (symmetry; exact Hw).
  apply Exists_cons in Hbody as [(_ & _ & Harg) | Hnil]; [discriminate|].
  by apply Exists_nil in Hnil.
Qed.

(** [unexpected_status_is_failure] at [server] answered with a 404. *)
Lemma unexpected_status_witness :
  made_no_request empty_state
    (run (always not_found) demo_client 0 (Call_server (PStr "42")) empty_state) \/
  rejected (Call_server (PStr "42") <> Call_ping) not_found empty_state
    (run (always not_found) demo_client 0 (Call_server (PStr "42")) empty_state).
Proof.
  apply (unexpected_status_is_failure (always not_found) demo_client 0
           (Call_server (PStr "42")) (Exactly 200) not_found empty_state).
  - reflexivity.
  - reflexivity.
  - intros req. reflexivity.
Defined.

(** C9, as stated, fails: the caller hands in an empty dictionary and finds
    [per_page] and [page] in it after a fetch of two pages. *)
Lemma params_gain_keys :
  heap (one_dict ∅) !! 0%nat = Some ∅ /\
  heap (servers (scripted [page_one; page_two]) demo_client 5 (Some 0%nat)
                (one_dict ∅)).2 !! 0%nat
  = Some (<["page" := PStr "2"]> (<["per_page" := PInt 100]> ∅)) /\
  heap (servers (scripted [page_one; page_two]) demo_client 5 (Some 0%nat)
                (one_dict ∅)).2 !! 0%nat
  <> heap (one_dict ∅) !! 0%nat.
Proof. vm_compute. repeat split. discriminate. Qed.

(** [params_updated_in_place] at an empty dictionary and a fetch of two
    pages. *)
Lemma params_updated_in_place_witness :
  exists d',
    heap (_get_pages (scripted [page_one; page_two]) demo_client 5 "GET"
                     [PStr ROUTE_SERVERS] (Some 0%nat) (one_dict ∅)).2 !! 0%nat
    = Some d' /\
    (forall k, k <> "per_page" -> k <> "page" -> d' !! k = (∅ : dict) !! k) /\
    d' !! "per_page" = Some (default (PInt 100) ((∅ : dict) !! "per_page")) /\
    (is_Some ((∅ : dict) !! "page") -> d' !! "page" = (∅ : dict) !! "page") /\
    (is_Some ((∅ : dict) !! "per_page") -> is_Some ((∅ : dict) !! "page") -> d' = ∅) /\
    ((∅ : dict) !! "page" = None ->
     d' !! "page" = None \/
     exists p, d' !! "page" = Some (PStr p) /\
               token_followed (scripted [page_one; page_two]) (one_dict ∅)
                 (_get_pages (scripted [page_one; page_two]) demo_client 5 "GET"
                             [PStr ROUTE_SERVERS] (Some 0%nat) (one_dict ∅)).2 p).
Proof.
  apply (params_updated_in_place (scripted [page_one; page_two]) demo_client 5 "GET"
           [PStr ROUTE_SERVERS] 0%nat ∅ (one_dict ∅)).
  reflexivity.
Defined.

(** [explicit_page_one_request] at a dictionary that holds [page]. *)
Lemma explicit_page_witness :
  trace (_get_pages (always page_one) demo_client 5 "GET" [PStr ROUTE_SERVERS]
                    (Some 0%nat) (one_dict (<["page" := PStr "1"]> ∅))).2
  = trace (one_dict (<["page" := PStr "1"]> ∅))
    ++ [the_request demo_client "GET"
          (api_url demo_client +:+ String.concat "/" [ROUTE_SERVERS])
          (Some (effective_params (heap (one_dict (<["page" := PStr "1"]> ∅)))
                                  (Some 0%nat)))] /\
  forall r,
    wire (always page_one) (trace (one_dict (<["page" := PStr "1"]> ∅)))
         (the_request demo_client "GET"
            (api_url demo_client +:+ String.concat "/" [ROUTE_SERVERS])
            (Some (effective_params (heap (one_dict (<["page" := PStr "1"]> ∅)))
                                    (Some 0%nat)))) = Responded r ->
    status_code r = 200 ->
    (_get_pages (always page_one) demo_client 5 "GET" [PStr ROUTE_SERVERS]
                (Some 0%nat) (one_dict (<["page" := PStr "1"]> ∅))).1
    = (_cbw_parser (always page_one) (Some r) (one_dict (<["page" := PStr "1"]> ∅))).1.
Proof.
  apply (explicit_page_one_request (always page_one) demo_client 5 "GET"
           [PStr ROUTE_SERVERS] [ROUTE_SERVERS] 0%nat
           (one_dict (<["page" := PStr "1"]> ∅))).
  - reflexivity.
  - exists (PStr "1"). reflexivity.
Defined.

(** With [page] given, the link the first page carries is not followed. *)
Example explicit_page_ignores_next :
  (servers (scripted [page_one; page_two]) demo_client 5 (Some 0%nat)
           (one_dict (<["page" := PStr "1"]> ∅))).1
  = Ret (RVal (PList [PInt 1; PInt 2])) /\
  length (trace (servers (scripted [page_one; page_two]) demo_client 5 (Some 0%nat)
                         (one_dict (<["page" := PStr "1"]> ∅))).2) = 1%nat.
Proof. vm_compute. split; reflexivity. Qed.

(** [missing_schema_terminates] at [ping] on a transport that raises
    [MissingSchema]. *)
Lemma missing_schema_witness :
  (forall verb payloads body segs,
      all_strings payloads = Some segs ->
      _request (failing MissingSchema) demo_client verb payloads body empty_state =
        (Exit (-1),
         logged (sent empty_state
                      (the_request demo_client verb
                         (api_url demo_client +:+ String.concat "/" segs) body))
                exit_diagnostic)) /\
  (made_no_request empty_state
     (run (failing MissingSchema) demo_client 0 Call_ping empty_state) \/
   (terminates_process
      (run (failing MissingSchema) demo_client 0 Call_ping empty_state).1 /\
    made_one_request empty_state
      (run (failing MissingSchema) demo_client 0 Call_ping empty_state) /\
    last (logs (run (failing MissingSchema) demo_client 0 Call_ping empty_state).2)
    = Some exit_diagnostic)).
Proof.
  apply (missing_schema_terminates (failing MissingSchema) demo_client 0 Call_ping
           empty_state).
  intros req. reflexivity.
Defined.

(** The same run, evaluated: [ping] ends the process with status -1 after
    logging the diagnostic. *)
Example missing_schema_ping :
  (ping (failing MissingSchema) demo_client empty_state).1 = Exit (-1) /\
  logs (ping (failing MissingSchema) demo_client empty_state).2 = [exit_diagnostic].
Proof. vm_compute. split; reflexivity. Qed.

(** [create_remote_access_unbound] at the empty dictionary. *)
Lemma create_remote_access_unbound_witness :
  create_remote_access (always ok_empty_list) demo_client (Some ∅) empty_state
  = (Raise UnboundLocalError, empty_state).
Proof.
  apply (create_remote_access_unbound (always ok_empty_list) demo_client (Some ∅)
           empty_state).
  reflexivity.
Defined.

(** [pages_concatenated] at two pages, of two items and of one. *)
Lemma pages_concatenated_witness :
  (_get_pages (scripted [page_one; page_two]) demo_client 1 "GET" [PStr ROUTE_SERVERS]
              None empty_state).1
  = Ret (PList (concat [[PInt 1; PInt 2]; [PInt 3]])) /\
  length (concat [[PInt 1; PInt 2]; [PInt 3]])
  = sum_list (length <$> [[PInt 1; PInt 2]; [PInt 3]]) /\
  (forall k page i x,
      [[PInt 1; PInt 2]; [PInt 3]] !! k = Some page -> page !! i = Some x ->
      concat [[PInt 1; PInt 2]; [PInt 3]]
        !! (sum_list (length <$> take k [[PInt 1; PInt 2]; [PInt 3]]) + i)%nat
      = Some x) /\
  length (trace (_get_pages (scripted [page_one; page_two]) demo_client 1 "GET"
                            [PStr ROUTE_SERVERS] None empty_state).2)
  = (length (trace empty_state) + length [page_one; page_two])%nat.
Proof.
  apply (pages_concatenated (scripted [page_one; page_two]) demo_client 1 "GET"
           [PStr ROUTE_SERVERS] [ROUTE_SERVERS] None empty_state page_one [page_two]
           [[PInt 1; PInt 2]; [PInt 3]]).
  - reflexivity.
  - reflexivity.
  - reflexivity.
  - reflexivity.
  - apply (followed_step _ _ _ _ _ _ _
             (Link "https://cbw.example/api/v3/servers" [("page", "2"); ("per_page", "100")])
             "2" [] page_two []).
    + reflexivity.
    + reflexivity.
    + reflexivity.
    + apply followed_done. reflexivity.
  - repeat constructor.
  - simpl. lia.
Defined.

(** * Further worked examples *)

(** [status_only_ignores_body] at the bulk upload. *)
Lemma status_only_ignores_body_witness :
  run (Environment (wire (always acknowledged)) (fun _ => Decoded PNone)) demo_client 0
      (Call_upload_importer_results None) empty_state
  = run (always acknowledged) demo_client 0 (Call_upload_importer_results None)
        empty_state.
Proof.
  apply (status_only_ignores_body (always acknowledged) demo_client 0
           (Call_upload_importer_results None) (fun _ => Decoded PNone) empty_state).
  reflexivity.
Defined.

(** [status_verdict_returned] at [delete_server] answered with a 204. *)
Lemma status_verdict_returned_witness :
  made_no_request empty_state
    (run (always acknowledged) demo_client 0 (Call_delete_server (PStr "42"))
         empty_state) \/
  ((run (always acknowledged) demo_client 0 (Call_delete_server (PStr "42"))
        empty_state).1 = Ret (RVal (PBool true)) /\
   made_one_request empty_state
     (run (always acknowledged) demo_client 0 (Call_delete_server (PStr "42"))
          empty_state)).
Proof.
  apply (status_verdict_returned (always acknowledged) demo_client 0
           (Call_delete_server (PStr "42")) acknowledged empty_state true).
  - reflexivity.
  - intros req. reflexivity.
Defined.

(** [ping] answers [False] to the same 204. *)
Example ping_wants_200 :
  (ping (always acknowledged) demo_client empty_state).1 = Ret (RVal (PBool false)).
Proof. reflexivity. Qed.

(** [guard_short_circuits] at [delete_server] with the empty string. *)
Lemma guard_short_circuits_witness :
  exists message,
    run (always ok_empty_list) demo_client 0 (Call_delete_server (PStr "")) empty_state
    = (Ret (RVal (PBool false)),
       logged empty_state (LogRecord RootLogger LError message None)).
Proof.
  apply (guard_short_circuits (always ok_empty_list) demo_client 0
           (Call_delete_server (PStr "")) empty_state).
  reflexivity.
Defined.

(** [accepted_response_is_parsed] at [create_group] answered with a 201. *)
Lemma accepted_response_is_parsed_witness :
  made_no_request empty_state
    (run (always created) demo_client 0 (Call_create_group None) empty_state) \/
  ((run (always created) demo_client 0 (Call_create_group None) empty_state).1
   = Ret (RVal (PList [PInt 1; PInt 2])) /\
   made_one_request empty_state
     (run (always created) demo_client 0 (Call_create_group None) empty_state) /\
   logs (run (always created) demo_client 0 (Call_create_group None) empty_state).2
   = logs empty_state).
Proof.
  apply (accepted_response_is_parsed (always created) demo_client 0
           (Call_create_group None) (Exactly 201) created (PList [PInt 1; PInt 2])
           empty_state).
  - reflexivity.
  - reflexivity.
  - reflexivity.
  - reflexivity.
  - intros req. reflexivity.
Defined.

(** [unhandled_transport_error_propagates] at [ping] and a read timeout. *)
Lemma unhandled_transport_error_witness :
  made_no_request empty_state
    (run (failing ReadTimeout) demo_client 0 Call_ping empty_state) \/
  ((run (failing ReadTimeout) demo_client 0 Call_ping empty_state).1
   = Raise ReadTimeout /\
   made_one_request empty_state
     (run (failing ReadTimeout) demo_client 0 Call_ping empty_state) /\
   exists new,
     wrote empty_state (run (failing ReadTimeout) demo_client 0 Call_ping empty_state)
           new /\
     Forall (fun r => log_level r = LDebug) new).
Proof.
  apply (unhandled_transport_error_propagates (failing ReadTimeout) demo_client 0
           Call_ping ReadTimeout empty_state).
  - reflexivity.
  - discriminate.
  - intros req. reflexivity.
Defined.

(** [non_string_identifier_sends_nothing] at [server(42)]. *)
Lemma non_string_identifier_witness :
  made_no_request empty_state
    (run (always ok_empty_list) demo_client 0 (Call_server (PInt 42)) empty_state) /\
  ((run (always ok_empty_list) demo_client 0 (Call_server (PInt 42)) empty_state).1
   = Raise TypeError \/
   (guard (Call_server (PInt 42)) = Some false /\
    (run (always ok_empty_list) demo_client 0 (Call_server (PInt 42)) empty_state).1
    = Ret (RVal (PBool false)))).
Proof.
  apply (non_string_identifier_sends_nothing (always ok_empty_list) demo_client 0
           (Call_server (PInt 42)) empty_state).
  reflexivity.
Defined.

(** [at_most_one_request] at [server]. *)
Lemma at_most_one_request_witness :
  made_no_request empty_state
    (run (always not_found) demo_client 0 (Call_server (PStr "42")) empty_state) \/
  made_one_request empty_state
    (run (always not_found) demo_client 0 (Call_server (PStr "42")) empty_state).
Proof.
  apply (at_most_one_request (always not_found) demo_client 0
           (Call_server (PStr "42")) empty_state).
  reflexivity.
Defined.

(** [store_is_kept] at a fetch without [params]: the dictionary already in
    the store is not the one the fetch works on. *)
Lemma store_is_kept_witness :
  heap (run (scripted [page_one; page_two]) demo_client 5 (Call_servers None)
            (one_dict ∅)).2 !! 0%nat = Some ∅.
Proof.
  apply (store_is_kept (scripted [page_one; page_two]) demo_client 5
           (Call_servers None) (one_dict ∅) 0%nat ∅).
  - reflexivity.
  - discriminate.
Defined.

(** [upload_returns_the_response] at a 204 whose body is not JSON. *)
Lemma upload_returns_the_response_witness :
  upload_importer_results (always acknowledged) demo_client None empty_state =
  (if status_code acknowledged =? 204 then
     (Ret (RResponse acknowledged),
      sent empty_state
           (the_request demo_client "POST"
              (api_url demo_client +:+ String.concat "/" [ROUTE_IMPORTER]) None))
   else
     (Ret (RVal PNone),
      logged (sent empty_state
                   (the_request demo_client "POST"
                      (api_url demo_client +:+ String.concat "/" [ROUTE_IMPORTER])
                      None))
             (LogRecord RootLogger LError "Error::{}"
                        (Some (AText (text acknowledged)))))).
Proof.
  apply (upload_returns_the_response (always acknowledged) demo_client None
           acknowledged empty_state).
  reflexivity.
Defined.

(** A 200 is not an acknowledgement for the bulk upload. *)
Example upload_rejects_200 :
  (upload_importer_results (always ok_empty_list) demo_client None empty_state).1
  = Ret (RVal PNone).
Proof. reflexivity. Qed.

(** [update_remote_access_parses_any_status] at a 422. *)
Lemma update_remote_access_witness :
  (update_remote_access (always unprocessable) demo_client (PStr "7")
                        (Some credential_info) empty_state).1
  = Ret (RVal (PList [])) /\
  made_one_request empty_state
    (update_remote_access (always unprocessable) demo_client (PStr "7")
                          (Some credential_info) empty_state).
Proof.
  apply (update_remote_access_parses_any_status (always unprocessable) demo_client
           "7" (Some credential_info) unprocessable (PList []) empty_state).
  - reflexivity.
  - reflexivity.
  - reflexivity.
  - reflexivity.
Defined.

(** [create_remote_access_builds_body] at a full description. *)
Lemma create_remote_access_builds_body_witness :
  trace (create_remote_access (always created) demo_client (Some full_info)
                              empty_state).2
  = trace empty_state
    ++ [the_request demo_client "POST"
          (api_url demo_client +:+ String.concat "/" [ROUTE_REMOTE_ACCESSES])
          (Some (remote_access_body full_info (PStr "ssh") (PStr "10.0.0.1")
                                    (PInt 22) (PStr "root") (PInt 1)))].
Proof.
  apply (create_remote_access_builds_body (always created) demo_client full_info
           (PStr "ssh") (PStr "10.0.0.1") (PInt 22) (PStr "root") (PInt 1)
           empty_state); reflexivity.
Defined.

(** The body built from [full_info]: the empty [auth_password] gives way
    to [password], no key is set, and [comment] is not sent. *)
Example full_info_body :
  remote_access_body full_info (PStr "ssh") (PStr "10.0.0.1") (PInt 22) (PStr "root")
                     (PInt 1)
  = <["type" := PStr "ssh"]>
    (<["address" := PStr "10.0.0.1"]>
    (<["port" := PInt 22]>
    (<["login" := PStr "root"]>
    (<["password" := PStr "pw"]>
    (<["key" := PNone]>
    (<["node_id" := PInt 1]>
    (<["server_groups" := PStr ""]> ∅))))))).
Proof. reflexivity. Qed.

(** [create_remote_access_missing_field] at a description without address. *)
Lemma create_remote_access_missing_field_witness :
  create_remote_access (always created) demo_client (Some info_without_address)
                       empty_state
  = (Raise KeyError, empty_state).
Proof.
  apply (create_remote_access_missing_field (always created) demo_client
           info_without_address "address" empty_state).
  - apply insert_non_empty.
  - reflexivity.
  - apply list_elem_of_further, list_elem_of_here.
  - reflexivity.
Defined.

(** [create_remote_access_posts_info] at a stored credential. *)
Lemma create_remote_access_posts_info_witness :
  trace (create_remote_access (always created) demo_client (Some credential_info)
                              empty_state).2
  = trace empty_state
    ++ [the_request demo_client "POST"
          (api_url demo_client +:+ String.concat "/" [ROUTE_REMOTE_ACCESSES])
          (Some credential_info)].
Proof.
  apply (create_remote_access_posts_info (always created) demo_client credential_info
           empty_state).
  reflexivity.
Defined.

(** [create_remote_access_raises_after_creation] at a stored credential
    and a 201. *)
Lemma create_remote_access_raises_witness :
  (create_remote_access (always created) demo_client (Some credential_info)
                        empty_state).1 = Raise KeyError /\
  trace (create_remote_access (always created) demo_client (Some credential_info)
                              empty_state).2
  = trace empty_state
    ++ [the_request demo_client "POST"
          (api_url demo_client +:+ String.concat "/" [ROUTE_REMOTE_ACCESSES])
          (Some credential_info)].
Proof.
  apply (create_remote_access_raises_after_creation (always created) demo_client
           credential_info created empty_state); reflexivity.
Defined.

(** [single_page_result] at one page of one item. *)
Lemma single_page_result_witness :
  (_get_pages (always page_two) demo_client 0 "GET" [PStr ROUTE_SERVERS] None
              empty_state).1
  = match py_iter (PList [PInt 3]) with
    | Some items => Ret (PList items)
    | None => Raise TypeError
    end.
Proof.
  apply (single_page_result (always page_two) demo_client 0 "GET" [PStr ROUTE_SERVERS]
           [ROUTE_SERVERS] None page_two (PList [PInt 3]) empty_state); reflexivity.
Defined.

(** [next_link_without_page] at a link that carries [per_page] only. *)
Lemma next_link_without_page_witness :
  (_get_pages (always page_with_bad_link) demo_client 1 "GET" [PStr ROUTE_SERVERS] None
              empty_state).1 = Raise KeyError /\
  trace (_get_pages (always page_with_bad_link) demo_client 1 "GET"
                    [PStr ROUTE_SERVERS] None empty_state).2
  = trace empty_state
    ++ [the_request demo_client "GET"
          (api_url demo_client +:+ String.concat "/" [ROUTE_SERVERS])
          (Some (effective_params (heap empty_state) None))].
Proof.
  apply (next_link_without_page (always page_with_bad_link) demo_client 1 "GET"
           [PStr ROUTE_SERVERS] [ROUTE_SERVERS] None page_with_bad_link
           (PList [PInt 1; PInt 2]) [PInt 1; PInt 2]
           (Link "https://cbw.example/api/v3/servers" [("per_page", "100")])
           empty_state); try reflexivity.
  lia.
Defined.
